(** * The Redshift external-schema (data catalog) resource

    A shallow embedding of
    [redshift/resource_redshift_external_schema_data_catalog.go]:
    the Exists / Create / Read / Update / Delete / Import callbacks of the
    Terraform resource, written as state-passing programs over

    - the [*schema.ResourceData] the framework hands to each callback,
    - the warehouse reached through [database/sql] (an abstract [Driver]),
    - a log of every call made on the warehouse, in the order it is made.

    A Go function either returns (possibly with a non-nil [error]) or
    panics; both outcomes are kept apart in [result]. *)

From Stdlib Require Import String Ascii List ZArith Bool Lia DecimalString.
Import ListNotations.
Open Scope string_scope.

(* ------------------------------------------------------------------ *)
(** ** Errors ([error], [sql.ErrNoRows], [errwrap.Wrapf])              *)
(* ------------------------------------------------------------------ *)

Module Errwrap.

(** A Go [error] value as this file produces or receives it:
    the sentinel [sql.ErrNoRows], any other error of the driver, or an
    [errwrap] wrapper holding an outer message and the wrapped error. *)
Inductive error : Type :=
| ErrNoRows
| ErrDriver (msg : string)
| Wrapped (outer : string) (inner : error).

(** [err.Error()] *)
Definition Error (e : error) : string :=
  match e with
  | ErrNoRows => "sql: no rows in result set"
  | ErrDriver msg => msg
  | Wrapped outer _ => outer
  end.

(** [strings.Replace(s, pat, rep, -1)] for a non-empty [pat]: every
    non-overlapping occurrence, left to right.  [skip] counts the
    characters of an occurrence that were already replaced. *)
Fixpoint replace_from (pat rep : string) (skip : nat) (s : string) : string :=
  match s with
  | EmptyString => EmptyString
  | String c s' =>
      match skip with
      | S k => replace_from pat rep k s'
      | O =>
          if String.prefix pat s
          then rep ++ replace_from pat rep (String.length pat - 1) s'
          else String c (replace_from pat rep 0 s')
      end
  end.

Definition Replace (s pat rep : string) : string := replace_from pat rep 0 s.

(** [errwrap.Wrapf(format, err)] with a non-nil [err]: the outer error
    is [format] with [{{err}}] replaced by [err.Error()]. *)
Definition Wrapf (format : string) (err : error) : error :=
  Wrapped (Replace format "{{err}}" (Error err)) err.

(** The innermost error of a chain of wrappers. *)
Fixpoint Cause (e : error) : error :=
  match e with
  | Wrapped _ inner => Cause inner
  | _ => e
  end.

End Errwrap.
Import Errwrap.

(** [fmt.Sprintf("%d", s)] applied to a Go [string]: the verb does not fit
    the operand, and [fmt] prints the mismatch marker. *)
Definition fmt_d_string (s : string) : string := "%!d(string=" ++ s ++ ")".

(* ------------------------------------------------------------------ *)
(** ** [schema.ResourceData]                                           *)
(* ------------------------------------------------------------------ *)

(** The attributes declared by [redshiftExternalSchemaDataCatalog].
    [owner] is a [TypeInt]; [0] is its zero value ("unset" for [GetOk]). *)
Record Attrs : Type := mkAttrs {
  schema_name : string;
  database_name : string;
  iam_role : string;
  owner : Z;
  cascade_on_delete : bool
}.

(** Values written with [d.Set] during the current callback. *)
Record Writes : Type := mkWrites {
  w_schema_name : option string;
  w_owner : option Z;
  w_database_name : option string;
  w_iam_role : option string
}.

Definition no_writes : Writes := mkWrites None None None None.

(** [d].  [rd_state] is the prior state, [rd_plan] the prior state merged
    with the diff (what the configuration asks for), [rd_writes] the
    set-level overlay, [rd_id] the value of [d.Id()]. *)
Record ResourceData : Type := mkRD {
  rd_id : string;
  rd_state : Attrs;
  rd_plan : Attrs;
  rd_writes : Writes
}.

(** The [ResourceData] the framework builds from a state and a diff. *)
Definition Data (id : string) (state plan : Attrs) : ResourceData :=
  mkRD id state plan no_writes.

Definition overlay {A : Type} (w : option A) (dflt : A) : A :=
  match w with Some v => v | None => dflt end.

(** [d.Get(key)]: the set level wins over the diff level. *)
Definition Get_schema_name (d : ResourceData) : string :=
  overlay (w_schema_name (rd_writes d)) (schema_name (rd_plan d)).
Definition Get_owner (d : ResourceData) : Z :=
  overlay (w_owner (rd_writes d)) (owner (rd_plan d)).
Definition Get_database_name (d : ResourceData) : string :=
  overlay (w_database_name (rd_writes d)) (database_name (rd_plan d)).
Definition Get_iam_role (d : ResourceData) : string :=
  overlay (w_iam_role (rd_writes d)) (iam_role (rd_plan d)).
Definition Get_cascade_on_delete (d : ResourceData) : bool :=
  cascade_on_delete (rd_plan d).

(** [d.GetOk(key)]: the value, and whether it differs from the zero value. *)
Definition GetOk_owner (d : ResourceData) : Z * bool :=
  (Get_owner d, negb (Z.eqb (Get_owner d) 0)).
Definition GetOk_cascade_on_delete (d : ResourceData) : bool * bool :=
  (Get_cascade_on_delete d, Get_cascade_on_delete d).

(** [d.GetChange(key)]: state level and diff level; [d.Set] is not seen. *)
Definition GetChange_schema_name (d : ResourceData) : string * string :=
  (schema_name (rd_state d), schema_name (rd_plan d)).
Definition GetChange_owner (d : ResourceData) : Z * Z :=
  (owner (rd_state d), owner (rd_plan d)).

(** [d.HasChange(key)] *)
Definition HasChange_schema_name (d : ResourceData) : bool :=
  negb (String.eqb (fst (GetChange_schema_name d)) (snd (GetChange_schema_name d))).
Definition HasChange_owner (d : ResourceData) : bool :=
  negb (Z.eqb (fst (GetChange_owner d)) (snd (GetChange_owner d))).

(** [d.Set(key, v)] and [d.SetId(v)] *)
Definition Set_schema_name (v : string) (d : ResourceData) : ResourceData :=
  let w := rd_writes d in
  mkRD (rd_id d) (rd_state d) (rd_plan d)
       (mkWrites (Some v) (w_owner w) (w_database_name w) (w_iam_role w)).
Definition Set_owner (v : Z) (d : ResourceData) : ResourceData :=
  let w := rd_writes d in
  mkRD (rd_id d) (rd_state d) (rd_plan d)
       (mkWrites (w_schema_name w) (Some v) (w_database_name w) (w_iam_role w)).
Definition Set_database_name (v : string) (d : ResourceData) : ResourceData :=
  let w := rd_writes d in
  mkRD (rd_id d) (rd_state d) (rd_plan d)
       (mkWrites (w_schema_name w) (w_owner w) (Some v) (w_iam_role w)).
Definition Set_iam_role (v : string) (d : ResourceData) : ResourceData :=
  let w := rd_writes d in
  mkRD (rd_id d) (rd_state d) (rd_plan d)
       (mkWrites (w_schema_name w) (w_owner w) (w_database_name w) (Some v)).
Definition SetId (v : string) (d : ResourceData) : ResourceData :=
  mkRD v (rd_state d) (rd_plan d) (rd_writes d).

(** The four attributes a read materialises, as [d.Get] returns them. *)
Record CatalogRow : Type := mkRow {
  row_schema_name : string;
  row_owner : Z;
  row_database_name : string;
  row_iam_role : string
}.

Definition held_attributes (d : ResourceData) : CatalogRow :=
  mkRow (Get_schema_name d) (Get_owner d) (Get_database_name d) (Get_iam_role d).

(* ------------------------------------------------------------------ *)
(** ** The warehouse behind [database/sql]                              *)
(* ------------------------------------------------------------------ *)

(** Which handle a statement goes through: the pooled [*sql.DB]
    ([redshiftClient]) or the [*sql.Tx] returned by [Begin]. *)
Inductive conn : Type := Plain | Tx.

(** The three fixed queries of the file. *)
Definition existenceQuery : string :=
  "SELECT nspname FROM pg_namespace WHERE oid = $1".
Definition oidQuery : string :=
  "SELECT oid FROM pg_namespace WHERE nspname = $1".
Definition readQuery : string :=
  "SELECT nspname, nspowner, databasename, json_extract_path_text(esoptions, 'IAM_ROLE') FROM pg_namespace JOIN svv_external_schemas ON pg_namespace.oid = esoid WHERE pg_namespace.oid = $1".

(** The statements of the file, as the code concatenates them. *)
Definition createStatement (name database role : string) : string :=
  "CREATE EXTERNAL SCHEMA " ++ name ++ " FROM DATA CATALOG DATABASE '"
  ++ database ++ "' IAM_ROLE '" ++ role ++ "'".
Definition alterSchemaNameQuery (oldName newName : string) : string :=
  "ALTER SCHEMA " ++ oldName ++ " RENAME TO " ++ newName.
Definition alterSchemaOwnerQuery (name username0 : string) : string :=
  "ALTER SCHEMA " ++ name ++ " OWNER TO " ++ username0.
Definition dropSchemaQuery (name : string) (cascade : bool) : string :=
  if cascade then ("DROP SCHEMA " ++ name) ++ " CASCADE "
  else "DROP SCHEMA " ++ name.

(** What the code needs from the warehouse.  [W] is the state of the
    warehouse, connections included.

    - [drv_exec c stmt]: [c.Exec(stmt)], the [sql.Result] dropped;
    - [drv_query_string q arg]: [db.QueryRow(q, arg).Scan(&s)] with one
      [string] destination;
    - [drv_query_schema q arg]: [db.QueryRow(q, arg).Scan(&schemaName,
      &owner, &databaseName, &iamRole)];
    - [drv_usernames c ids]: [GetUsersnamesForUsesysid(c, ids)], defined in
      another file of the provider: the names of the given user ids;
    - [drv_begin], [drv_commit], [drv_rollback]: [db.Begin()],
      [tx.Commit()], [tx.Rollback()] (the results of the last two are
      dropped by the code);
    - [drv_sleep n]: what happens to the warehouse during
      [time.Sleep(n * time.Second)].

    Queries read the warehouse and leave it as it is. *)
Class Driver (W : Type) : Type := {
  drv_exec : conn -> string -> W -> option error * W;
  drv_query_string : string -> string -> W -> error + string;
  drv_query_schema : string -> string -> W -> error + CatalogRow;
  drv_usernames : conn -> list Z -> W -> list string;
  drv_begin : W -> option error * W;
  drv_commit : W -> W;
  drv_rollback : W -> W;
  drv_sleep : Z -> W -> W
}.

(** One entry of the call log. *)
Inductive event : Type :=
| EvBegin
| EvExec (c : conn) (stmt : string)
| EvQueryRow (c : conn) (query arg : string)
| EvUsernames (c : conn) (ids : list Z)
| EvCommit
| EvRollback
| EvSleep (seconds : Z)
| EvSetId (id : string).

(** A panic carries the value given to [panic] or the runtime error. *)
Inductive panic_value : Type :=
| PanicError (e : error)
| PanicIndexOutOfRange (index len : nat).

Inductive result (A : Type) : Type :=
| Ret (a : A)
| Panic (p : panic_value).
Arguments Ret {A} a.
Arguments Panic {A} p.

(* ------------------------------------------------------------------ *)
(** ** Programs: state passing with panics                              *)
(* ------------------------------------------------------------------ *)

(** Everything a callback can touch: the warehouse, the log of the calls
    made so far (oldest first) and the resource data. *)
Record St (W : Type) : Type := mkSt {
  world : W;
  calls : list event;
  rd : ResourceData
}.
Arguments mkSt {W} world calls rd.
Arguments world {W} s.
Arguments calls {W} s.
Arguments rd {W} s.

Definition M (W A : Type) : Type := St W -> result A * St W.

Definition ret {W A : Type} (a : A) : M W A := fun s => (Ret a, s).

Definition bind {W A B : Type} (m : M W A) (k : A -> M W B) : M W B :=
  fun s =>
    match m s with
    | (Ret a, s') => k a s'
    | (Panic p, s') => (Panic p, s')
    end.

Definition panic {W A : Type} (p : panic_value) : M W A :=
  fun s => (Panic p, s).

Declare Scope go_scope.
Delimit Scope go_scope with go.
Notation "x <- m ;; k" := (bind m (fun x => k))
  (at level 100, m at next level, right associativity) : go_scope.
Notation "m ;;; k" := (bind m (fun _ => k))
  (at level 100, right associativity) : go_scope.
(** [if err := m; err != nil { return err }] followed by [k]. *)
Notation "'try!' m ;; k" :=
  (bind m (fun r => match r with
                    | Some err => ret (Some err)
                    | None => k
                    end))
  (at level 100, m at next level, right associativity) : go_scope.
Open Scope go_scope.

Definition record_call {W : Type} (e : event) (s : St W) : St W :=
  mkSt (world s) (calls s ++ [e]) (rd s).

(** Reading and updating [d]. *)
Definition with_d {W A : Type} (f : ResourceData -> A) : M W A :=
  fun s => (Ret (f (rd s)), s).
Definition update_d {W : Type} (f : ResourceData -> ResourceData) : M W unit :=
  fun s => (Ret tt, mkSt (world s) (calls s) (f (rd s))).
Definition set_id {W : Type} (v : string) : M W unit :=
  fun s => (Ret tt, mkSt (world s) (calls s ++ [EvSetId v]) (SetId v (rd s))).

Section Resource.

Context {W : Type} {DRV : Driver W}.

(** *** Calls on the warehouse, each one logged *)

Definition Exec (c : conn) (stmt : string) : M W (option error) :=
  fun s =>
    let (err, w') := drv_exec c stmt (world s) in
    (Ret err, mkSt w' (calls s ++ [EvExec c stmt]) (rd s)).

Definition QueryRow_string (query arg : string) : M W (error + string) :=
  fun s => (Ret (drv_query_string query arg (world s)),
            record_call (EvQueryRow Plain query arg) s).

Definition QueryRow_schema (query arg : string) : M W (error + CatalogRow) :=
  fun s => (Ret (drv_query_schema query arg (world s)),
            record_call (EvQueryRow Plain query arg) s).

(** [GetUsersnamesForUsesysid(q, ids)] is defined in another file of the
    provider.  It is taken from the warehouse as a parameter and assumed
    to return its list of names, without changing the warehouse. *)
Definition GetUsersnamesForUsesysid (c : conn) (ids : list Z) : M W (list string) :=
  fun s => (Ret (drv_usernames c ids (world s)),
            record_call (EvUsernames c ids) s).

Definition Begin : M W (option error) :=
  fun s =>
    let (err, w') := drv_begin (world s) in
    (Ret err, mkSt w' (calls s ++ [EvBegin]) (rd s)).

Definition Commit : M W unit :=
  fun s => (Ret tt, mkSt (drv_commit (world s)) (calls s ++ [EvCommit]) (rd s)).

Definition Rollback : M W unit :=
  fun s => (Ret tt, mkSt (drv_rollback (world s)) (calls s ++ [EvRollback]) (rd s)).

Definition Sleep (seconds : Z) : M W unit :=
  fun s => (Ret tt, mkSt (drv_sleep seconds (world s))
                         (calls s ++ [EvSleep seconds]) (rd s)).

(** [username[0]] on a slice: a run-time panic when the slice is empty. *)
Definition index0 (names : list string) : M W string :=
  match names with
  | n :: _ => ret n
  | [] => panic (PanicIndexOutOfRange 0 0)
  end.

(** *** The callbacks *)

(** [resourceDataCatalogSchemaExists] *)
Definition resourceDataCatalogSchemaExists : M W (bool * option error) :=
  id <- with_d rd_id ;;
  r <- QueryRow_string existenceQuery id ;;
  match r with
  | inl ErrNoRows => ret (false, None)
  | inl err =>
      ret (false,
           Some (Wrapf ("Error reading external schema with oid "
                        ++ fmt_d_string id ++ ": {{err}}") err))
  | inr _ => ret (true, None)
  end.

(** [readDataCatalogSchema] *)
Definition readDataCatalogSchema : M W (option error) :=
  id <- with_d rd_id ;;
  r <- QueryRow_schema readQuery id ;;
  match r with
  | inl err =>
      ret (Some (Wrapf ("Error reading external schema information for oid "
                        ++ fmt_d_string id ++ ": {{err}}") err))
  | inr row =>
      update_d (Set_schema_name (row_schema_name row)) ;;;
      update_d (Set_owner (row_owner row)) ;;;
      update_d (Set_database_name (row_database_name row)) ;;;
      update_d (Set_iam_role (row_iam_role row)) ;;;
      ret None
  end.

(** [updateDataCatalogSchemaOwner]; [q] is the handle it is given. *)
Definition updateDataCatalogSchemaOwner (q : conn) : M W (option error) :=
  own <- with_d Get_owner ;;
  username <- GetUsersnamesForUsesysid q [own] ;;
  name <- with_d Get_schema_name ;;
  username0 <- index0 username ;;
  err <- Exec q (alterSchemaOwnerQuery name username0) ;;
  match err with
  | Some err =>
      name' <- with_d Get_schema_name ;;
      username0' <- index0 username ;;
      ret (Some (Wrapf ("Error updating external schema " ++ name'
                        ++ " owner to " ++ username0' ++ ": {{err}}") err))
  | None => ret None
  end.

(** [resourceDataCatalogSchemaCreate] *)
Definition resourceDataCatalogSchemaCreate : M W (option error) :=
  name <- with_d Get_schema_name ;;
  database <- with_d Get_database_name ;;
  role <- with_d Get_iam_role ;;
  err <- Exec Plain (createStatement name database role) ;;
  match err with
  | Some err =>
      ret (Some (Wrapf ("Error creating external schema " ++ name
                        ++ ": {{err}}") err))
  | None =>
      Sleep 5 ;;;
      ok <- with_d (fun d => snd (GetOk_owner d)) ;;
      try! (if ok then updateDataCatalogSchemaOwner Plain else ret None) ;;
      name2 <- with_d Get_schema_name ;;
      r <- QueryRow_string oidQuery name2 ;;
      match r with
      | inl err =>
          ret (Some (Wrapf ("Error reading oid for created external schema "
                            ++ name2 ++ ": {{err}}") err))
      | inr oid =>
          set_id oid ;;;
          readDataCatalogSchema
      end
  end.

(** [resourceDataCatalogSchemaRead] *)
Definition resourceDataCatalogSchemaRead : M W (option error) :=
  err <- readDataCatalogSchema ;;
  ret err.

(** [resourceDataCatalogSchemaUpdate] *)
Definition resourceDataCatalogSchemaUpdate : M W (option error) :=
  txErr <- Begin ;;
  match txErr with
  | Some txErr => panic (PanicError txErr)
  | None =>
      changed <- with_d HasChange_schema_name ;;
      try! (if changed then
              names <- with_d GetChange_schema_name ;;
              let (oldName, newName) := names in
              err <- Exec Tx (alterSchemaNameQuery oldName newName) ;;
              match err with
              | Some err =>
                  ret (Some (Wrapf ("Error renaming external schema " ++ oldName
                                    ++ " to " ++ newName ++ ": {{err}}") err))
              | None => ret None
              end
            else ret None) ;;
      reowned <- with_d HasChange_owner ;;
      try! (if reowned then updateDataCatalogSchemaOwner Tx else ret None) ;;
      err <- readDataCatalogSchema ;;
      match err with
      | Some err =>
          Rollback ;;;
          ret (Some (Wrapf "Error performing rollback: {{err}}" err))
      | None =>
          Commit ;;;
          ret None
      end
  end.

(** [resourceDataCatalogSchemaDelete] *)
Definition resourceDataCatalogSchemaDelete : M W (option error) :=
  name <- with_d Get_schema_name ;;
  vok <- with_d GetOk_cascade_on_delete ;;
  err <- Exec Plain (dropSchemaQuery name (snd vok && fst vok)) ;;
  match err with
  | Some err =>
      name' <- with_d Get_schema_name ;;
      ret (Some (Wrapf ("Error dropping external schema " ++ name'
                        ++ ": {{err}}") err))
  | None => ret None
  end.

(** [resourceDataCatalogSchemaImport]: the slice it returns holds [d]. *)
Definition resourceDataCatalogSchemaImport : M W (list ResourceData * option error) :=
  err <- resourceDataCatalogSchemaRead ;;
  match err with
  | Some err => ret ([], Some err)
  | None => d <- with_d (fun d => d) ;; ret ([d], None)
  end.

(** A callback started by the framework on [d] against the warehouse [w],
    with an empty call log. *)
Definition run {A : Type} (m : M W A) (d : ResourceData) (w : W) : result A * St W :=
  m (mkSt w [] d).

End Resource.

(* ------------------------------------------------------------------ *)
(** ** Observations on a run                                            *)
(* ------------------------------------------------------------------ *)

(** The statements handed to [Exec], with their handle, in order. *)
Fixpoint executed (l : list event) : list (conn * string) :=
  match l with
  | [] => []
  | EvExec c stmt :: l' => (c, stmt) :: executed l'
  | _ :: l' => executed l'
  end.

(** The identifiers given to [d.SetId], in order. *)
Fixpoint assigned_ids (l : list event) : list string :=
  match l with
  | [] => []
  | EvSetId id :: l' => id :: assigned_ids l'
  | _ :: l' => assigned_ids l'
  end.

(** Has the transaction been released: committed or rolled back? *)
Definition releases (e : event) : bool :=
  match e with
  | EvCommit | EvRollback => true
  | _ => false
  end.

Definition released (l : list event) : bool := existsb releases l.

(** Does the call go through a transaction: [Begin], [Commit],
    [Rollback], or anything on the [*sql.Tx] handle? *)
Definition on_transaction (e : event) : bool :=
  match e with
  | EvBegin | EvCommit | EvRollback => true
  | EvExec Tx _ | EvQueryRow Tx _ _ | EvUsernames Tx _ => true
  | _ => false
  end.

Definition uses_transaction (l : list event) : bool := existsb on_transaction l.

(** The pauses of a run, in seconds. *)
Fixpoint sleeps (l : list event) : list Z :=
  match l with
  | [] => []
  | EvSleep n :: l' => n :: sleeps l'
  | _ :: l' => sleeps l'
  end.

(** The name lookups of a run. *)
Fixpoint lookups (l : list event) : list (conn * list Z) :=
  match l with
  | [] => []
  | EvUsernames c ids :: l' => (c, ids) :: lookups l'
  | _ :: l' => lookups l'
  end.

(** A text without an opening brace, hence without [{{err}}]. *)
Fixpoint no_brace (s : string) : bool :=
  match s with
  | EmptyString => true
  | String c s' => negb (Ascii.eqb c "{"%char) && no_brace s'
  end.

Section Transactions.

Context {W : Type} {DRV : Driver W}.

(** Two warehouses on which the pooled connection reads the same rows. *)
Definition same_reads (w1 w2 : W) : Prop :=
  (forall q a, drv_query_string q a w1 = drv_query_string q a w2) /\
  (forall q a, drv_query_schema q a w1 = drv_query_schema q a w2).

(** [in_transaction w0 w]: [w] is reached from [w0] by a successful
    [Begin] followed by statements executed on the transaction. *)
Inductive in_transaction (w0 : W) : W -> Prop :=
| tx_begun : forall w1, drv_begin w0 = (None, w1) -> in_transaction w0 w1
| tx_exec : forall w stmt,
    in_transaction w0 w -> in_transaction w0 (snd (drv_exec Tx stmt w)).


End Transactions.

(* ------------------------------------------------------------------ *)
(** ** A small warehouse to run the callbacks against                   *)
(* ------------------------------------------------------------------ *)

Module Warehouse.

(** A row of [pg_namespace] joined with [svv_external_schemas]. *)
Record Entry : Type := mkEntry {
  e_oid : string;
  e_name : string;
  e_owner : Z;
  e_database : string;
  e_role : string
}.

(** [catalog] is what is committed; [txn] is the working copy of the open
    transaction (one at a time); [read_uncommitted] tells whether the
    pooled connection already reads that working copy; [refused] lists the
    statements and queries the warehouse turns down. *)
Record State : Type := mkState {
  catalog : list Entry;
  txn : option (list Entry);
  users : list (Z * string);
  next_oid : nat;
  session_user : Z;
  reachable : bool;
  read_uncommitted : bool;
  refused : list string
}.

(** The catalog as the pooled connection reads it. *)
Definition visible (w : State) : list Entry :=
  match txn w with
  | Some work => if read_uncommitted w then work else catalog w
  | None => catalog w
  end.

Definition space : ascii := " "%char.
Definition quote : ascii := "'"%char.

(** The words of a statement, split at spaces. *)
Fixpoint words_from (cur s : string) : list string :=
  match s with
  | EmptyString => if String.eqb cur EmptyString then [] else [cur]
  | String c s' =>
      if Ascii.eqb c space
      then (if String.eqb cur EmptyString then words_from EmptyString s'
            else cur :: words_from EmptyString s')
      else words_from (cur ++ String c EmptyString) s'
  end.
Definition words (s : string) : list string := words_from EmptyString s.

Fixpoint drop_last_quote (s : string) : string :=
  match s with
  | EmptyString => EmptyString
  | String c EmptyString => if Ascii.eqb c quote then EmptyString else s
  | String c s' => String c (drop_last_quote s')
  end.
Definition unquote (s : string) : string :=
  match s with
  | String c s' => if Ascii.eqb c quote then drop_last_quote s' else s
  | EmptyString => EmptyString
  end.

Definition oid_of (n : nat) : string := NilEmpty.string_of_uint (Nat.to_uint n).

Definition by_name (n : string) (cat : list Entry) : option Entry :=
  find (fun e => String.eqb (e_name e) n) cat.
Definition by_oid (o : string) (cat : list Entry) : option Entry :=
  find (fun e => String.eqb (e_oid e) o) cat.
Definition user_id (u : string) (us : list (Z * string)) : option Z :=
  option_map fst (find (fun p => String.eqb (snd p) u) us).
Definition user_name (i : Z) (us : list (Z * string)) : option string :=
  option_map snd (find (fun p => Z.eqb (fst p) i) us).

Definition rename (a b : string) (e : Entry) : Entry :=
  if String.eqb (e_name e) a
  then mkEntry (e_oid e) b (e_owner e) (e_database e) (e_role e) else e.
Definition reown (a : string) (o : Z) (e : Entry) : Entry :=
  if String.eqb (e_name e) a
  then mkEntry (e_oid e) (e_name e) o (e_database e) (e_role e) else e.

Definition is_words (ks ws : list string) : bool :=
  if list_eq_dec string_dec ks ws then true else false.

(** The effect of one statement on a catalog. *)
Definition statement (us : list (Z * string)) (me : Z) (stmt : string)
           (cat : list Entry) (next : nat) : error + (list Entry * nat) :=
  match words stmt with
  | [k1; k2; k3; n; k4; k5; k6; k7; db; k8; role] =>
      if is_words [k1; k2; k3; k4; k5; k6; k7; k8]
           ["CREATE"; "EXTERNAL"; "SCHEMA"; "FROM"; "DATA"; "CATALOG";
            "DATABASE"; "IAM_ROLE"]
      then match by_name n cat with
           | Some _ => inl (ErrDriver "schema already exists")
           | None => inr ((cat ++ [mkEntry (oid_of next) n me (unquote db)
                                           (unquote role)])%list, S next)
           end
      else inl (ErrDriver "syntax error")
  | [k1; k2; a; k3; k4; b] =>
      if is_words [k1; k2; k3; k4] ["ALTER"; "SCHEMA"; "RENAME"; "TO"]
      then match by_name a cat, by_name b cat with
           | Some _, None => inr (map (rename a b) cat, next)
           | None, _ => inl (ErrDriver "schema does not exist")
           | Some _, Some _ => inl (ErrDriver "schema already exists")
           end
      else if is_words [k1; k2; k3; k4] ["ALTER"; "SCHEMA"; "OWNER"; "TO"]
      then match by_name a cat, user_id b us with
           | Some _, Some o => inr (map (reown a o) cat, next)
           | None, _ => inl (ErrDriver "schema does not exist")
           | Some _, None => inl (ErrDriver "user does not exist")
           end
      else inl (ErrDriver "syntax error")
  | [k1; k2; a] =>
      if is_words [k1; k2] ["DROP"; "SCHEMA"]
      then match by_name a cat with
           | Some _ =>
               inr (filter (fun e => negb (String.eqb (e_name e) a)) cat, next)
           | None => inl (ErrDriver "schema does not exist")
           end
      else inl (ErrDriver "syntax error")
  | [k1; k2; a; k3] =>
      if is_words [k1; k2; k3] ["DROP"; "SCHEMA"; "CASCADE"]
      then match by_name a cat with
           | Some _ =>
               inr (filter (fun e => negb (String.eqb (e_name e) a)) cat, next)
           | None => inl (ErrDriver "schema does not exist")
           end
      else inl (ErrDriver "syntax error")
  | _ => inl (ErrDriver "syntax error")
  end.

Definition unreachable : error := ErrDriver "connection refused".
Definition denied : error := ErrDriver "permission denied".
Definition already_open : error := ErrDriver "a transaction is already open".

Definition is_refused (q : string) (w : State) : bool :=
  existsb (String.eqb q) (refused w).
Definition no_transaction : error :=
  ErrDriver "sql: transaction has already been committed or rolled back".

Definition exec (c : conn) (stmt : string) (w : State) : option error * State :=
  if negb (reachable w) then (Some unreachable, w)
  else if is_refused stmt w then (Some denied, w)
  else
    match c with
    | Plain =>
        match statement (users w) (session_user w) stmt (catalog w) (next_oid w) with
        | inl e => (Some e, w)
        | inr (cat, next) =>
            (None, mkState cat (txn w) (users w) next (session_user w) true
                           (read_uncommitted w) (refused w))
        end
    | Tx =>
        match txn w with
        | None => (Some no_transaction, w)
        | Some work =>
            match statement (users w) (session_user w) stmt work (next_oid w) with
            | inl e => (Some e, w)
            | inr (work', next) =>
                (None, mkState (catalog w) (Some work') (users w) next
                               (session_user w) true (read_uncommitted w) (refused w))
            end
        end
    end.

Definition query_string (q arg : string) (w : State) : error + string :=
  if negb (reachable w) then inl unreachable
  else if is_refused q w then inl denied
  else
    if String.eqb q existenceQuery then
      match by_oid arg (visible w) with
      | Some e => inr (e_name e)
      | None => inl ErrNoRows
      end
    else if String.eqb q oidQuery then
      match by_name arg (visible w) with
      | Some e => inr (e_oid e)
      | None => inl ErrNoRows
      end
    else inl (ErrDriver "unknown query").

Definition query_schema (q arg : string) (w : State) : error + CatalogRow :=
  if negb (reachable w) then inl unreachable
  else if is_refused q w then inl denied
  else
    if String.eqb q readQuery then
      match by_oid arg (visible w) with
      | Some e => inr (mkRow (e_name e) (e_owner e) (e_database e) (e_role e))
      | None => inl ErrNoRows
      end
    else inl (ErrDriver "unknown query").

Fixpoint usernames (ids : list Z) (us : list (Z * string)) : list string :=
  match ids with
  | [] => []
  | i :: ids' =>
      match user_name i us with
      | Some u => u :: usernames ids' us
      | None => usernames ids' us
      end
  end.

Definition begin (w : State) : option error * State :=
  if negb (reachable w) then (Some unreachable, w)
  else
    match txn w with
    | Some _ => (Some already_open, w)
    | None =>
        (None, mkState (catalog w) (Some (catalog w)) (users w) (next_oid w)
                       (session_user w) true (read_uncommitted w) (refused w))
    end.

Definition commit (w : State) : State :=
  match txn w with
  | Some work =>
      mkState work None (users w) (next_oid w) (session_user w) (reachable w)
              (read_uncommitted w) (refused w)
  | None => w
  end.

Definition rollback (w : State) : State :=
  mkState (catalog w) None (users w) (next_oid w) (session_user w)
          (reachable w) (read_uncommitted w) (refused w).

#[export] Instance driver : Driver State := {
  drv_exec := exec;
  drv_query_string := query_string;
  drv_query_schema := query_schema;
  drv_usernames := fun _ ids w => usernames ids (users w);
  drv_begin := begin;
  drv_commit := commit;
  drv_rollback := rollback;
  drv_sleep := fun _ w => w
}.

(** One external schema [ext1] (oid 100) owned by user 100, and the
    users [admin] (100) and [alice] (200); transactions are isolated. *)
Definition ext1 : Entry :=
  mkEntry "100" "ext1" 100 "gluedb" "arn:aws:iam::123:role/r".
Definition people : list (Z * string) := [(100%Z, "admin"); (200%Z, "alice")].
Definition one_schema : State := mkState [ext1] None people 101 100 true false [].
Definition empty : State := mkState [] None people 100 100 true false [].
(** The same, on a warehouse whose pooled connection reads uncommitted
    work, and on one that cannot be reached. *)
Definition one_schema_dirty : State := mkState [ext1] None people 101 100 true true [].
Definition one_schema_down : State := mkState [ext1] None people 101 100 false false [].
(** [ext1] next to a schema that already has the name [ext2]. *)
Definition ext2 : Entry :=
  mkEntry "101" "ext2" 100 "gluedb" "arn:aws:iam::123:role/r".
Definition two_schemas : State := mkState [ext1; ext2] None people 102 100 true false [].
(** An empty warehouse that turns down one statement or query. *)
Definition empty_refusing (q : string) : State :=
  mkState [] None people 100 100 true false [q].

Definition attrs_ext1 : Attrs :=
  mkAttrs "ext1" "gluedb" "arn:aws:iam::123:role/r" 100 false.
(** Renamed to [ext2] and given to [alice]. *)
Definition attrs_ext2_alice : Attrs :=
  mkAttrs "ext2" "gluedb" "arn:aws:iam::123:role/r" 200 false.


(** *** Resource data for the scenarios *)

Definition role : string := "arn:aws:iam::123:role/r".
Definition unset : Attrs := mkAttrs EmptyString EmptyString EmptyString 0 false.

(** A new resource, without and with an owner. *)
Definition d_create : ResourceData :=
  Data EmptyString unset (mkAttrs "ext1" "gluedb" role 0 false).
Definition d_create_owned : ResourceData :=
  Data EmptyString unset (mkAttrs "ext1" "gluedb" role 200 false).
(** [ext1] as it is, to be dropped with CASCADE, renamed and given to
    [alice], given to [alice] only, given to a user nobody knows. *)
Definition d_current : ResourceData := Data "100" attrs_ext1 attrs_ext1.
Definition d_cascade : ResourceData :=
  Data "100" attrs_ext1 (mkAttrs "ext1" "gluedb" role 100 true).
Definition d_rename_reown : ResourceData := Data "100" attrs_ext1 attrs_ext2_alice.
Definition d_reown : ResourceData :=
  Data "100" attrs_ext1 (mkAttrs "ext1" "gluedb" role 200 false).
Definition d_unknown_owner : ResourceData :=
  Data "100" attrs_ext1 (mkAttrs "ext1" "gluedb" role 999 false).
(** The same change under an identifier that no longer resolves. *)
Definition d_stale : ResourceData := Data "999" attrs_ext1 attrs_ext2_alice.

(** *** The runs of the scenarios *)

Definition owner_statement : string := "ALTER SCHEMA ext1 OWNER TO alice".

Definition created := run resourceDataCatalogSchemaCreate d_create empty.
Definition created_owner_refused :=
  run resourceDataCatalogSchemaCreate d_create_owned (empty_refusing owner_statement).
Definition created_lookup_refused :=
  run resourceDataCatalogSchemaCreate d_create (empty_refusing oidQuery).
Definition updated := run resourceDataCatalogSchemaUpdate d_rename_reown one_schema.
Definition updated_dirty :=
  run resourceDataCatalogSchemaUpdate d_rename_reown one_schema_dirty.
Definition updated_stale := run resourceDataCatalogSchemaUpdate d_stale one_schema.
Definition updated_clash :=
  run resourceDataCatalogSchemaUpdate d_rename_reown two_schemas.
Definition updated_gone := run resourceDataCatalogSchemaUpdate d_reown empty.
Definition deleted := run resourceDataCatalogSchemaDelete d_current one_schema.
Definition deleted_cascade := run resourceDataCatalogSchemaDelete d_cascade one_schema.
(** A Read of what [d] holds after a run, on the warehouse the run left. *)
Definition fresh_read (out : result (option error) * St State) :=
  run resourceDataCatalogSchemaRead (rd (snd out)) (world (snd out)).

(** Further runs: Create with an owner, Create and Delete on a warehouse
    that turns the statement down, Create whose read-back is turned down,
    Read and Import of [ext1], and Update with nothing to change. *)
Definition created_owned := run resourceDataCatalogSchemaCreate d_create_owned empty.
Definition create_statement : string := createStatement "ext1" "gluedb" role.
Definition created_refused :=
  run resourceDataCatalogSchemaCreate d_create (empty_refusing create_statement).
Definition created_unread :=
  run resourceDataCatalogSchemaCreate d_create (empty_refusing readQuery).
Definition read_ext1 := run resourceDataCatalogSchemaRead d_rename_reown one_schema.
Definition imported := run resourceDataCatalogSchemaImport d_current one_schema.
Definition imported_missing := run resourceDataCatalogSchemaImport d_current empty.
Definition updated_unchanged :=
  run resourceDataCatalogSchemaUpdate d_current one_schema.
Definition deleted_missing := run resourceDataCatalogSchemaDelete d_current empty.

End Warehouse.

(* ------------------------------------------------------------------ *)
(** ** Facts about the callbacks, for every warehouse                   *)
(* ------------------------------------------------------------------ *)

(** Run a callback symbolically: unfold the program, then split on the
    answers of the warehouse and on the data-dependent branches. *)
Ltac go_unfold :=
  unfold run, resourceDataCatalogSchemaImport, resourceDataCatalogSchemaRead,
    resourceDataCatalogSchemaExists, resourceDataCatalogSchemaCreate,
    resourceDataCatalogSchemaUpdate, resourceDataCatalogSchemaDelete,
    updateDataCatalogSchemaOwner, readDataCatalogSchema, index0,
    Exec, QueryRow_string, QueryRow_schema, GetUsersnamesForUsesysid,
    Begin, Commit, Rollback, Sleep, set_id, update_d, with_d, record_call,
    GetChange_schema_name, bind, ret, panic in *;
  cbn [world calls rd fst snd] in *.

Ltac go_split :=
  match goal with
  | |- context [match drv_exec ?c ?q ?w with _ => _ end] =>
      let e := fresh "err" in let w' := fresh "w" in let E := fresh "Hexec" in
      destruct (drv_exec c q w) as [[e|] w'] eqn:E
  | |- context [match drv_begin ?w with _ => _ end] =>
      let e := fresh "err" in let w' := fresh "w" in let E := fresh "Hbegin" in
      destruct (drv_begin w) as [[e|] w'] eqn:E
  | |- context [match drv_query_string ?q ?a ?w with _ => _ end] =>
      let e := fresh "err" in let v := fresh "v" in let E := fresh "Hquery" in
      destruct (drv_query_string q a w) as [e|v] eqn:E
  | |- context [match drv_query_schema ?q ?a ?w with _ => _ end] =>
      let e := fresh "err" in let v := fresh "row" in let E := fresh "Hread" in
      destruct (drv_query_schema q a w) as [e|v] eqn:E
  | |- context [match drv_usernames ?c ?ids ?w with _ => _ end] =>
      let u := fresh "u" in let us := fresh "us" in let E := fresh "Hnames" in
      destruct (drv_usernames c ids w) as [|u us] eqn:E
  | |- context [if ?b then _ else _] =>
      let E := fresh "Hif" in destruct b eqn:E
  | |- context [match ?e with ErrNoRows => _ | _ => _ end] =>
      is_var e; destruct e
  end; cbn [world calls rd fst snd] in *.

Ltac go_run := go_unfold; repeat go_split.

(** A wrapper is never the error it wraps. *)
Lemma Wrapped_neq_inner (e : error) : forall outer, Wrapped outer e <> e.
Proof.
  induction e as [| msg | o e IH]; intros outer H; try discriminate.
  injection H as _ H. exact (IH _ H).
Qed.

Section ResourceFacts.

Context {W : Type} {DRV : Driver W}.

(** *** Exists *)

(** C6.  Exists answers [false] without an error when the existence query
    finds no row, [true] without an error when it finds one, and returns
    an error exactly when the query fails in another way; the answer is
    then [false].  It never panics and leaves [d] and the warehouse as
    they were. *)
Theorem exists_by_query_outcome (d : ResourceData) (w : W) :
  let q := drv_query_string existenceQuery (rd_id d) w in
  let out := run resourceDataCatalogSchemaExists d w in
  (q = inl ErrNoRows -> fst out = Ret (false, None)) /\
  (forall name, q = inr name -> fst out = Ret (true, None)) /\
  (forall err, q = inl err -> err <> ErrNoRows ->
     exists wrapped, fst out = Ret (false, Some wrapped) /\ Cause wrapped = Cause err) /\
  (forall b wrapped, fst out = Ret (b, Some wrapped) ->
     exists err, q = inl err /\ err <> ErrNoRows) /\
  (exists b e, fst out = Ret (b, e)) /\
  rd (snd out) = d /\ world (snd out) = w /\
  calls (snd out) = [EvQueryRow Plain existenceQuery (rd_id d)].
Proof.
  intros q out; subst q out; go_unfold.
  destruct (drv_query_string existenceQuery (rd_id d) w) as [e|name] eqn:Hq.
  - destruct e; cbn.
    + repeat split; intros; try discriminate; try congruence; eauto.
    + repeat split; intros; try discriminate; try congruence; eauto.
      * injection H as ->. eexists; split; reflexivity.
      * exists (ErrDriver msg); split; congruence.
    + repeat split; intros; try discriminate; try congruence; eauto.
      * injection H as ->. eexists; split; reflexivity.
      * exists (Wrapped outer e); split; congruence.
  - cbn; repeat split; intros; try discriminate; eauto.
Qed.

(** *** Delete *)

(** C7 (as the code has it).  Delete hands exactly one statement to the
    pooled connection: [DROP SCHEMA x] when [cascade_on_delete] is false
    or unset, and [DROP SCHEMA x CASCADE ], with a space after the
    keyword, when it is true. *)
Theorem delete_issues_one_drop_statement (d : ResourceData) (w : W) :
  let out := run resourceDataCatalogSchemaDelete d w in
  let x := Get_schema_name d in
  calls (snd out) =
    [EvExec Plain (if Get_cascade_on_delete d
                   then "DROP SCHEMA " ++ x ++ " CASCADE "
                   else "DROP SCHEMA " ++ x)] /\
  (Get_cascade_on_delete d = true ->
     executed (calls (snd out)) = [(Plain, "DROP SCHEMA " ++ x ++ " CASCADE" ++ " ")]) /\
  (Get_cascade_on_delete d = false ->
     executed (calls (snd out)) = [(Plain, "DROP SCHEMA " ++ x)]).
Proof.
  cbv zeta. go_unfold. unfold GetOk_cascade_on_delete, dropSchemaQuery.
  cbn [fst snd]. rewrite andb_diag.
  assert (Hassoc : ("DROP SCHEMA " ++ Get_schema_name d) ++ " CASCADE "
                   = "DROP SCHEMA " ++ Get_schema_name d ++ " CASCADE ")
    by reflexivity.
  destruct (Get_cascade_on_delete d); go_split; cbn; rewrite ?Hassoc;
    repeat split; intros; try discriminate; reflexivity.
Qed.

(** *** The identifier *)

(** C8.  Read, Update, Delete, Exists and Import never call [SetId] and
    leave [d.Id()] as it was, whatever the warehouse answers and whether
    they return or panic (so a rename through Update keeps the
    identifier).  Create is the one that assigns it: it calls [SetId] at
    most once, always with the oid the lookup by name returned, it does so
    whenever that lookup is reached and answers, and a Create that returns
    nil has done so exactly once; without that call the identifier is
    untouched. *)
Theorem identifier_assigned_only_by_create (d : ResourceData) (w : W) :
  (let out := run resourceDataCatalogSchemaRead d w in
   rd_id (rd (snd out)) = rd_id d /\ assigned_ids (calls (snd out)) = []) /\
  (let out := run resourceDataCatalogSchemaUpdate d w in
   rd_id (rd (snd out)) = rd_id d /\ assigned_ids (calls (snd out)) = []) /\
  (let out := run resourceDataCatalogSchemaDelete d w in
   rd_id (rd (snd out)) = rd_id d /\ assigned_ids (calls (snd out)) = []) /\
  (let out := run resourceDataCatalogSchemaExists d w in
   rd_id (rd (snd out)) = rd_id d /\ assigned_ids (calls (snd out)) = []) /\
  (let out := run resourceDataCatalogSchemaImport d w in
   rd_id (rd (snd out)) = rd_id d /\ assigned_ids (calls (snd out)) = []) /\
  (let out := run resourceDataCatalogSchemaCreate d w in
   let name := Get_schema_name d in
   ((assigned_ids (calls (snd out)) = [] /\ rd_id (rd (snd out)) = rd_id d) \/
    (exists oid,
       assigned_ids (calls (snd out)) = [oid] /\ rd_id (rd (snd out)) = oid /\
       In (EvQueryRow Plain oidQuery name) (calls (snd out)) /\
       drv_query_string oidQuery name (world (snd out)) = inr oid)) /\
   (forall oid,
      In (EvQueryRow Plain oidQuery name) (calls (snd out)) ->
      drv_query_string oidQuery name (world (snd out)) = inr oid ->
      assigned_ids (calls (snd out)) = [oid] /\ rd_id (rd (snd out)) = oid) /\
   (fst out = Ret None ->
    exists oid,
      drv_query_string oidQuery name (world (snd out)) = inr oid /\
      assigned_ids (calls (snd out)) = [oid] /\ rd_id (rd (snd out)) = oid)).
Proof.
  cbv zeta. split; [|split; [|split; [|split; [|split]]]].
  1-5: split; go_run; reflexivity.
  split; [|split].
  - go_run; cbn; try (left; split; reflexivity);
      right; eexists; (split; [reflexivity|]); (split; [reflexivity|]);
      (split; [tauto | assumption]).
  - intros oid. go_run; cbn [calls snd fst world rd app In]; intros Hin Hq;
      try (repeat (destruct Hin as [Hin|Hin]; try discriminate Hin);
           contradiction);
      try congruence;
      assert (Hv : v = oid) by congruence; subst v; split; reflexivity.
  - go_run; cbn [calls snd fst world rd]; intros H; try discriminate H;
      eexists; (split; [eassumption|]); split; reflexivity.
Qed.

(** *** Read *)

(** C5 (as the code has it).  [readDataCatalogSchema] has one failure
    path: whatever error the join query ends with, [sql.ErrNoRows]
    included, comes back inside the same [errwrap] wrapper, built from the
    same format; the error of the driver is the wrapped cause.  Read hands
    on the result of [readDataCatalogSchema] as it is.  Nothing is
    written to [d] on that path. *)
Theorem read_wraps_every_query_error (d : ResourceData) (w : W) (err : error) :
  drv_query_schema readQuery (rd_id d) w = inl err ->
  let format := "Error reading external schema information for oid "
                ++ fmt_d_string (rd_id d) ++ ": {{err}}" in
  run resourceDataCatalogSchemaRead d w = run readDataCatalogSchema d w /\
  fst (run resourceDataCatalogSchemaRead d w) = Ret (Some (Wrapf format err)) /\
  (exists outer,
     fst (run resourceDataCatalogSchemaRead d w) = Ret (Some (Wrapped outer err))) /\
  fst (run resourceDataCatalogSchemaRead d w) <> Ret (Some err) /\
  rd (snd (run resourceDataCatalogSchemaRead d w)) = d.
Proof.
  intros Hq; cbv zeta. go_unfold. rewrite Hq.
  repeat split.
  - eexists; reflexivity.
  - intros H; injection H as H. exact (Wrapped_neq_inner _ _ H).
Qed.

(** *** The owner *)

(** C4 (what the code does).  When the name lookup returns no name,
    [updateDataCatalogSchemaOwner] panics on [username[0]]: it returns no
    error to its caller and issues no statement. *)
Theorem owner_update_panics_on_empty_lookup
        (q : conn) (d : ResourceData) (w : W) (l : list event) :
  drv_usernames q [Get_owner d] w = [] ->
  updateDataCatalogSchemaOwner q (mkSt w l d)
  = (Panic (PanicIndexOutOfRange 0 0),
     mkSt w (l ++ [EvUsernames q [Get_owner d]]) d).
Proof.
  intros Hnames. go_unfold. rewrite Hnames. reflexivity.
Qed.

(** *** Update: the statements and their order *)

(** C3.  In an Update that changes both [schema_name] and [owner], the
    statements go to the transaction in this order: the rename
    [ALTER SCHEMA old RENAME TO new] first, then the owner statement, which
    names the new schema name.  The list stops early only when a step
    fails (nothing if [Begin] fails, the rename alone if the rename or the
    name lookup fails); whenever the owner statement is there the rename
    precedes it, and an Update that reaches its read-back, in particular
    one that succeeds, has issued exactly both. *)
Theorem update_renames_before_reowning
        (id : string) (state plan : Attrs) (w : W) :
  schema_name state <> schema_name plan ->
  owner state <> owner plan ->
  let out := run resourceDataCatalogSchemaUpdate (Data id state plan) w in
  let rename :=
    (Tx, "ALTER SCHEMA " ++ schema_name state ++ " RENAME TO " ++ schema_name plan) in
  let reown := fun u =>
    (Tx, "ALTER SCHEMA " ++ schema_name plan ++ " OWNER TO " ++ u) in
  (executed (calls (snd out)) = [] \/
   executed (calls (snd out)) = [rename] \/
   exists u, executed (calls (snd out)) = [rename; reown u]) /\
  (In (EvQueryRow Plain readQuery id) (calls (snd out)) ->
   exists u, executed (calls (snd out)) = [rename; reown u]) /\
  (fst out = Ret None ->
   exists u, executed (calls (snd out)) = [rename; reown u]).
Proof.
  intros Hname Howner; cbv zeta.
  assert (Hn : HasChange_schema_name (Data id state plan) = true).
  { unfold HasChange_schema_name; cbn.
    destruct (String.eqb_spec (schema_name state) (schema_name plan));
      [contradiction | reflexivity]. }
  assert (Ho : HasChange_owner (Data id state plan) = true).
  { unfold HasChange_owner; cbn.
    destruct (Z.eqb_spec (owner state) (owner plan));
      [contradiction | reflexivity]. }
  unfold alterSchemaNameQuery, alterSchemaOwnerQuery.
  go_unfold.
  destruct (drv_begin w) as [[e|] w1]; cbn [world calls rd fst snd].
  { cbn. repeat split; intros; try discriminate; eauto;
      try (cbn in *; intuition discriminate). }
  rewrite Hn. cbn [world calls rd fst snd rd_state rd_plan Data].
  unfold alterSchemaNameQuery.
  destruct (drv_exec Tx _ w1) as [[e|] w2]; cbn [world calls rd fst snd].
  { cbn. repeat split; intros; try discriminate; eauto;
      try (cbn in *; intuition discriminate). }
  rewrite Ho. cbn [world calls rd fst snd].
  destruct (drv_usernames Tx _ w2) as [|u us]; cbn [world calls rd fst snd].
  { cbn. repeat split; intros; try discriminate; eauto;
      try (cbn in *; intuition discriminate). }
  unfold alterSchemaOwnerQuery, Get_schema_name; cbn [rd_writes rd_plan Data overlay no_writes w_schema_name].
  destruct (drv_exec Tx _ w2) as [[e|] w3]; cbn [world calls rd fst snd].
  { cbn. repeat split; intros; try discriminate; eauto;
      try (cbn in *; intuition discriminate). }
  cbn [rd_id Data].
  destruct (drv_query_schema readQuery id w3) as [e|row];
    cbn; repeat split; intros; eauto.
Qed.

(** *** Update: releasing the transaction *)

(** C9 (what the code does).  Update commits or rolls back exactly when
    it has reached its read-back.  When the rename statement fails, and
    when the owner statement fails, it returns the wrapped error at once:
    the log ends with the failed statement, and the transaction begun at
    the start of the call is neither committed nor rolled back. *)
Theorem update_early_return_keeps_transaction_open
        (d : ResourceData) (w w1 : W) :
  drv_begin w = (None, w1) ->
  let out := run resourceDataCatalogSchemaUpdate d w in
  let oldName := schema_name (rd_state d) in
  let newName := schema_name (rd_plan d) in
  (released (calls (snd out)) = true <->
   In (EvQueryRow Plain readQuery (rd_id d)) (calls (snd out))) /\
  (forall e w2,
     HasChange_schema_name d = true ->
     drv_exec Tx (alterSchemaNameQuery oldName newName) w1 = (Some e, w2) ->
     out = (Ret (Some (Wrapf ("Error renaming external schema " ++ oldName
                              ++ " to " ++ newName ++ ": {{err}}") e)),
            mkSt w2 [EvBegin; EvExec Tx (alterSchemaNameQuery oldName newName)] d)
     /\ released (calls (snd out)) = false) /\
  (forall u us e w2,
     HasChange_schema_name d = false ->
     HasChange_owner d = true ->
     drv_usernames Tx [Get_owner d] w1 = u :: us ->
     drv_exec Tx (alterSchemaOwnerQuery (Get_schema_name d) u) w1 = (Some e, w2) ->
     out = (Ret (Some (Wrapf ("Error updating external schema "
                              ++ Get_schema_name d ++ " owner to " ++ u
                              ++ ": {{err}}") e)),
            mkSt w2 [EvBegin; EvUsernames Tx [Get_owner d];
                     EvExec Tx (alterSchemaOwnerQuery (Get_schema_name d) u)] d)
     /\ released (calls (snd out)) = false).
Proof.
  intros Hbegin; cbv zeta. split; [|split].
  - go_unfold. rewrite Hbegin. cbn [world calls rd fst snd].
    repeat go_split; cbn; split; intros H; try discriminate; try tauto;
      repeat (destruct H as [H|H]; try discriminate H); try contradiction.
  - intros e w2 Hn Hexec. go_unfold.
    rewrite Hbegin; cbn [world calls rd fst snd].
    rewrite Hn; cbn [world calls rd fst snd].
    rewrite Hexec; cbn [world calls rd fst snd]. split; reflexivity.
  - intros u us e w2 Hn Ho Hnames Hexec. go_unfold.
    rewrite Hbegin; cbn [world calls rd fst snd].
    rewrite Hn; cbn [world calls rd fst snd].
    rewrite Ho; cbn [world calls rd fst snd].
    rewrite Hnames; cbn [world calls rd fst snd].
    rewrite Hexec; cbn [world calls rd fst snd]. split; reflexivity.
Qed.

(** *** Create: failures between the statement and [SetId] *)

(** C10.  Once the CREATE statement has succeeded: if the owner step
    returns an error, Create returns that error; if the oid lookup fails,
    Create returns its error, wrapped; in both cases [SetId] has not been
    called and [d.Id()] is what it was.  [SetId] is called only after the
    owner step (when there is one) returned nil and the lookup returned
    an oid.  The statements issued are the CREATE, which succeeded, and at
    most the owner statement: nothing removes the schema again. *)
Theorem create_fails_before_assigning_identifier (d : ResourceData) (w w1 : W) :
  let stmt := createStatement (Get_schema_name d) (Get_database_name d)
                              (Get_iam_role d) in
  drv_exec Plain stmt w = (None, w1) ->
  let s1 := mkSt (drv_sleep 5 w1) [EvExec Plain stmt; EvSleep 5] d in
  let owner_step : M W (option error) :=
    if snd (GetOk_owner d) then updateDataCatalogSchemaOwner Plain else ret None in
  let out := run resourceDataCatalogSchemaCreate d w in
  (forall e s2,
     owner_step s1 = (Ret (Some e), s2) ->
     out = (Ret (Some e), s2) /\
     rd_id (rd (snd out)) = rd_id d /\ assigned_ids (calls (snd out)) = []) /\
  (forall e s2,
     owner_step s1 = (Ret None, s2) ->
     drv_query_string oidQuery (Get_schema_name d) (world s2) = inl e ->
     fst out = Ret (Some (Wrapf ("Error reading oid for created external schema "
                                 ++ Get_schema_name d ++ ": {{err}}") e)) /\
     rd_id (rd (snd out)) = rd_id d /\ assigned_ids (calls (snd out)) = []) /\
  (forall oid,
     In (EvSetId oid) (calls (snd out)) ->
     exists s2, owner_step s1 = (Ret None, s2) /\
                drv_query_string oidQuery (Get_schema_name d) (world s2) = inr oid) /\
  (exists rest,
     executed (calls (snd out)) = (Plain, stmt) :: rest /\
     forall c q, In (c, q) rest ->
       exists u, c = Plain /\ q = alterSchemaOwnerQuery (Get_schema_name d) u).
Proof.
  cbv zeta; intros Hexec. split; [|split; [|split]].
  - intros e s2. go_unfold. rewrite Hexec; cbn [world calls rd fst snd app].
    destruct (snd (GetOk_owner d)); cbn [world calls rd fst snd app].
    + repeat go_split; intros H; inversion H; subst; cbn; auto.
    + intros H; discriminate H.
  - intros e s2. go_unfold. rewrite Hexec; cbn [world calls rd fst snd app].
    destruct (snd (GetOk_owner d)); cbn [world calls rd fst snd app].
    + repeat go_split; intros H; inversion H; subst; cbn [world];
        intros Hq; try congruence;
        rewrite Hq in *; match goal with
                         | H : inl _ = inl _ |- _ => injection H as <-
                         end; cbn; auto.
    + intros H; inversion H; subst; cbn [world]. intros Hq; rewrite Hq.
      cbn; auto.
  - intros oid. go_unfold. rewrite Hexec; cbn [world calls rd fst snd app].
    destruct (snd (GetOk_owner d)); cbn [world calls rd fst snd app];
      repeat go_split; cbn; intros H;
      repeat (destruct H as [H|H]; try discriminate H); try contradiction;
      injection H as <-; eexists; split; try reflexivity; cbn [world]; assumption.
  - go_unfold. rewrite Hexec; cbn [world calls rd fst snd app].
    destruct (snd (GetOk_owner d)); cbn [world calls rd fst snd app];
      repeat go_split; cbn [executed app calls snd];
      eexists; (split; [reflexivity|]); cbn; intros c q H;
      repeat (destruct H as [H|H]; try discriminate H); try contradiction;
      injection H as <- <-; eexists; split; reflexivity.
Qed.

(** *** Update: the read-back *)

(** An Update that returns nil has made its read-back. *)
Lemma update_success_reaches_read_back (d : ResourceData) (w : W) :
  fst (run resourceDataCatalogSchemaUpdate d w) = Ret None ->
  In (EvQueryRow Plain readQuery (rd_id d))
     (calls (snd (run resourceDataCatalogSchemaUpdate d w))).
Proof.
  go_unfold. repeat go_split; cbn; intros H; try discriminate H; tauto.
Qed.


(** What Update leaves behind when its read-back is reached. *)
Lemma update_reaches_read_back (d : ResourceData) (w : W) :
  let out := run resourceDataCatalogSchemaUpdate d w in
  In (EvQueryRow Plain readQuery (rd_id d)) (calls (snd out)) ->
  exists wt before,
    in_transaction w wt /\
    ~ In EvCommit before /\ ~ In EvRollback before /\
    (forall c q, In (c, q) (executed before) -> c = Tx) /\
    match drv_query_schema readQuery (rd_id d) wt with
    | inl err =>
        out = (Ret (Some (Wrapf "Error performing rollback: {{err}}"
                 (Wrapf ("Error reading external schema information for oid "
                         ++ fmt_d_string (rd_id d) ++ ": {{err}}") err))),
               mkSt (drv_rollback wt) (before ++ [EvRollback]) d)
    | inr row =>
        out = (Ret None,
               mkSt (drv_commit wt) (before ++ [EvCommit])
                    (Set_iam_role (row_iam_role row)
                       (Set_database_name (row_database_name row)
                          (Set_owner (row_owner row)
                             (Set_schema_name (row_schema_name row) d)))))
    end.
Proof.
  cbv zeta. go_unfold.
  destruct (drv_begin w) as [[e|] w1] eqn:Hbegin; cbn [world calls rd fst snd].
  { cbn; intuition discriminate. }
  assert (T1 : in_transaction w w1) by (apply tx_begun; exact Hbegin).
  assert (Tx_step : forall q w' e', in_transaction w w' ->
            forall w'', drv_exec Tx q w' = (e', w'') -> in_transaction w w'').
  { intros q w' e' Hin w'' Hq.
    replace w'' with (snd (drv_exec Tx q w')) by (rewrite Hq; reflexivity).
    apply tx_exec; exact Hin. }
  repeat go_split;
    try (cbn; intuition discriminate);
    intros _;
    repeat match goal with
           | H : drv_exec Tx _ _ = _ |- _ =>
               apply Tx_step in H; [|assumption]
           end;
    match goal with
    | Hr : drv_query_schema readQuery (rd_id d) ?wt = _ |- _ =>
        exists wt; eexists; rewrite Hr
    end;
    (split; [assumption|]);
    refine (conj _ (conj _ (conj _ eq_refl)));
    cbn; intuition (try discriminate; try congruence).
Qed.


(** What a successful Create leaves behind. *)
Lemma create_success_shape (d : ResourceData) (w : W) (s' : St W) :
  run resourceDataCatalogSchemaCreate d w = (Ret None, s') ->
  exists oid row,
    drv_query_schema readQuery oid (world s') = inr row /\
    assigned_ids (calls s') = [oid] /\
    rd s' = Set_iam_role (row_iam_role row)
              (Set_database_name (row_database_name row)
                 (Set_owner (row_owner row)
                    (Set_schema_name (row_schema_name row) (SetId oid d)))).
Proof.
  go_unfold.
  repeat go_split; intros H; inversion H; subst; clear H;
    cbn [world calls rd]; do 2 eexists;
    (split; [eassumption|]); split; reflexivity.
Qed.

(** X16.  After a successful Create the attributes
    held in [d] are, field by field, the row the join query returns for
    the assigned identifier on the warehouse as Create leaves it, and a
    fresh Read there changes nothing in [d].  After a successful Update
    they are the row the pooled connection read for the identifier while
    the transaction was still open, just before the commit; a fresh Read
    after the commit gives the same attributes provided the commit does not
    change what the pooled connection reads.  In both cases the values read
    replace what the caller supplied. *)
Theorem held_attributes_are_the_read_back (d : ResourceData) (w : W) :
  (forall s',
     run resourceDataCatalogSchemaCreate d w = (Ret None, s') ->
     assigned_ids (calls s') = [rd_id (rd s')] /\
     drv_query_schema readQuery (rd_id (rd s')) (world s')
     = inr (held_attributes (rd s')) /\
     fst (run resourceDataCatalogSchemaRead (rd s') (world s')) = Ret None /\
     rd (snd (run resourceDataCatalogSchemaRead (rd s') (world s'))) = rd s') /\
  (forall s',
     run resourceDataCatalogSchemaUpdate d w = (Ret None, s') ->
     rd_id (rd s') = rd_id d /\
     exists wt,
       in_transaction w wt /\ world s' = drv_commit wt /\
       drv_query_schema readQuery (rd_id d) wt = inr (held_attributes (rd s')) /\
       (same_reads (drv_commit wt) wt ->
        fst (run resourceDataCatalogSchemaRead (rd s') (world s')) = Ret None /\
        rd (snd (run resourceDataCatalogSchemaRead (rd s') (world s'))) = rd s')).
Proof.
  split.
  - intros s' Hrun.
    destruct (create_success_shape d w s' Hrun) as (oid & row & Hr & Hids & Hrd).
    rewrite Hrd, Hids. go_unfold.
    cbn [rd_id SetId Set_iam_role Set_database_name Set_owner Set_schema_name].
    rewrite Hr. destruct row; repeat split; reflexivity.
  - intros s' Hrun.
    assert (Hreached : In (EvQueryRow Plain readQuery (rd_id d))
                          (calls (snd (run resourceDataCatalogSchemaUpdate d w)))).
    { apply (update_success_reaches_read_back d w).
      rewrite Hrun. reflexivity. }
    destruct (update_reaches_read_back d w Hreached)
      as (wt & before & Hin & _ & _ & _ & Hout).
    rewrite Hrun in Hout.
    destruct (drv_query_schema readQuery (rd_id d) wt) as [err|row] eqn:Hr;
      [discriminate Hout|].
    injection Hout as ->. cbn [rd world rd_id Set_iam_role]. split; [reflexivity|].
    exists wt. repeat split; try assumption.
    + rewrite Hr; destruct row; reflexivity.
    + destruct H as [_ Hs]. go_unfold.
      cbn [rd_id Set_iam_role Set_database_name Set_owner Set_schema_name].
      rewrite (Hs readQuery (rd_id d)), Hr. reflexivity.
    + destruct H as [_ Hs]. go_unfold.
      cbn [rd_id Set_iam_role Set_database_name Set_owner Set_schema_name].
      rewrite (Hs readQuery (rd_id d)), Hr. destruct row; reflexivity.
Qed.

End ResourceFacts.

(* ------------------------------------------------------------------ *)
(** ** The small warehouse keeps the contract of transactions           *)
(* ------------------------------------------------------------------ *)

Module WarehouseFacts.
Import Warehouse.

Lemma in_transaction_inv (w0 w : State) :
  in_transaction w0 w ->
  txn w0 = None /\ catalog w = catalog w0 /\ reachable w = reachable w0 /\
  refused w = refused w0 /\ read_uncommitted w = read_uncommitted w0 /\
  exists work, txn w = Some work.
Proof.
  induction 1 as [w1 Hb | w stmt Hin IH].
  - cbn in Hb. unfold begin in Hb.
    destruct (reachable w0) eqn:Hr; cbn in Hb; [|discriminate].
    destruct (txn w0) eqn:Ht; [discriminate|].
    injection Hb as <-. cbn. repeat split; eauto.
  - destruct IH as (H0 & Hc & Hr & Hf & Hu & work & Ht).
    cbn. unfold exec.
    destruct (reachable w) eqn:Hrw; cbn [negb]; [|cbn; repeat split; eauto].
    destruct (is_refused stmt w); [cbn; repeat split; eauto|].
    rewrite Ht.
    destruct (statement (users w) (session_user w) stmt work (next_oid w))
      as [e|[work' next]]; cbn; rewrite <- ?Hr; repeat split; eauto.
Qed.

Lemma reads_depend_on_visible (w1 w2 : State) :
  reachable w1 = reachable w2 -> refused w1 = refused w2 ->
  visible w1 = visible w2 -> same_reads w1 w2.
Proof.
  intros Hr Hf Hv; split; intros q a; cbn;
    unfold query_string, query_schema, is_refused; rewrite Hr, Hf, Hv;
    reflexivity.
Qed.


(** When the pooled connection reads uncommitted work, committing does not
    change what it reads. *)
Lemma commit_law (w0 w : State) :
  read_uncommitted w0 = true -> in_transaction w0 w ->
  same_reads (drv_commit w) w.
Proof.
  intros Hd Hin.
  destruct (in_transaction_inv w0 w Hin) as (H0 & Hc & Hr & Hf & Hu & work & Ht).
  apply reads_depend_on_visible; cbn; unfold commit; rewrite Ht; cbn; auto.
  unfold visible; cbn. rewrite Ht, Hu, Hd. reflexivity.
Qed.

End WarehouseFacts.

(* ------------------------------------------------------------------ *)
(** ** The callbacks on the small warehouse                             *)
(* ------------------------------------------------------------------ *)

Import Warehouse WarehouseFacts.

(** Exists on a warehouse without the schema, with it, and out of reach. *)
Lemma exists_by_query_outcome_witness :
  fst (run resourceDataCatalogSchemaExists d_current empty) = Ret (false, None) /\
  fst (run resourceDataCatalogSchemaExists d_current one_schema) = Ret (true, None) /\
  (exists wrapped,
     fst (run resourceDataCatalogSchemaExists d_current one_schema_down)
     = Ret (false, Some wrapped) /\ Cause wrapped = Cause unreachable) /\
  (exists err,
     drv_query_string existenceQuery (rd_id d_current) one_schema_down = inl err /\
     err <> ErrNoRows).
Proof.
  split; [|split; [|split]].
  - apply (exists_by_query_outcome d_current empty). reflexivity.
  - pose proof (exists_by_query_outcome d_current one_schema) as H.
    cbv zeta in H. apply (proj1 (proj2 H) "ext1"). reflexivity.
  - pose proof (exists_by_query_outcome d_current one_schema_down) as H.
    cbv zeta in H.
    apply (proj1 (proj2 (proj2 H)) unreachable); [reflexivity | discriminate].
  - pose proof (exists_by_query_outcome d_current one_schema_down) as H.
    cbv zeta in H.
    apply (proj1 (proj2 (proj2 (proj2 H))) false
             (Wrapf ("Error reading external schema with oid "
                     ++ fmt_d_string "100" ++ ": {{err}}") unreachable)).
    reflexivity.
Defined.

(** Delete with and without [cascade_on_delete]. *)
Lemma delete_issues_one_drop_statement_witness :
  executed (calls (snd deleted_cascade)) = [(Plain, "DROP SCHEMA ext1 CASCADE ")] /\
  executed (calls (snd deleted)) = [(Plain, "DROP SCHEMA ext1")].
Proof.
  split.
  - pose proof (delete_issues_one_drop_statement d_cascade one_schema) as H.
    cbv zeta in H. apply (proj1 (proj2 H)). reflexivity.
  - pose proof (delete_issues_one_drop_statement d_current one_schema) as H.
    cbv zeta in H. apply (proj2 (proj2 H)). reflexivity.
Defined.

(** C7, as stated, fails: with [cascade_on_delete] set, the statement
    issued for [ext1] is not the string [DROP SCHEMA ext1 CASCADE]. *)
Lemma delete_cascade_statement_is_not_exact :
  Get_cascade_on_delete d_cascade = true /\
  executed (calls (snd deleted_cascade)) <> [(Plain, "DROP SCHEMA ext1 CASCADE")].
Proof.
  split; [reflexivity|]. vm_compute. intros H. discriminate H.
Qed.

(** Read of an identifier that matches no row, and on a warehouse out of
    reach. *)
Lemma read_wraps_every_query_error_witness :
  fst (run resourceDataCatalogSchemaRead d_current empty)
  = Ret (Some (Wrapped
      "Error reading external schema information for oid %!d(string=100): sql: no rows in result set"
      ErrNoRows)) /\
  fst (run resourceDataCatalogSchemaRead d_current one_schema_down)
  = Ret (Some (Wrapped
      "Error reading external schema information for oid %!d(string=100): connection refused"
      unreachable)).
Proof.
  split.
  - pose proof (read_wraps_every_query_error d_current empty ErrNoRows eq_refl) as H.
    cbv zeta in H. exact (proj1 (proj2 H)).
  - pose proof (read_wraps_every_query_error d_current one_schema_down
                  unreachable eq_refl) as H.
    cbv zeta in H. exact (proj1 (proj2 H)).
Defined.

(** C5, as stated, fails: when no row matches, the error Read returns is
    not [sql.ErrNoRows] itself but a wrapper around it, of the same form
    as the wrapper around any other failure of the query. *)
Lemma read_does_not_return_ErrNoRows_unchanged :
  drv_query_schema readQuery (rd_id d_current) empty = inl ErrNoRows /\
  fst (run resourceDataCatalogSchemaRead d_current empty) <> Ret (Some ErrNoRows) /\
  exists outer outer',
    fst (run resourceDataCatalogSchemaRead d_current empty)
    = Ret (Some (Wrapped outer ErrNoRows)) /\
    fst (run resourceDataCatalogSchemaRead d_current one_schema_down)
    = Ret (Some (Wrapped outer' unreachable)).
Proof.
  split; [reflexivity|]. split.
  - vm_compute. intros H. discriminate H.
  - do 2 eexists. split; vm_compute; reflexivity.
Qed.

(** An owner nobody knows: the lookup is empty and the owner update
    panics before any statement. *)
Lemma owner_update_panics_on_empty_lookup_witness :
  fst (run (updateDataCatalogSchemaOwner Tx) d_unknown_owner one_schema)
  = Panic (PanicIndexOutOfRange 0 0) /\
  executed (calls (snd (run (updateDataCatalogSchemaOwner Tx) d_unknown_owner
                            one_schema))) = [].
Proof.
  assert (Hnames : drv_usernames Tx [Get_owner d_unknown_owner] one_schema = [])
    by reflexivity.
  unfold run.
  rewrite (owner_update_panics_on_empty_lookup Tx d_unknown_owner one_schema []
             Hnames).
  split; reflexivity.
Defined.

(** The same owner through Update: the panic leaves the call. *)
Example update_unknown_owner_panics :
  fst (run resourceDataCatalogSchemaUpdate d_unknown_owner one_schema)
  = Panic (PanicIndexOutOfRange 0 0).
Proof. reflexivity. Qed.

(** Renaming [ext1] to [ext2] and giving it to [alice]. *)
Example update_rename_reown_calls :
  calls (snd updated)
  = [EvBegin;
     EvExec Tx "ALTER SCHEMA ext1 RENAME TO ext2";
     EvUsernames Tx [200%Z];
     EvExec Tx "ALTER SCHEMA ext2 OWNER TO alice";
     EvQueryRow Plain readQuery "100";
     EvCommit].
Proof. reflexivity. Qed.

Lemma update_renames_before_reowning_witness :
  exists u,
    executed (calls (snd updated))
    = [(Tx, "ALTER SCHEMA ext1 RENAME TO ext2");
       (Tx, "ALTER SCHEMA ext2 OWNER TO " ++ u)].
Proof.
  pose proof (update_renames_before_reowning "100" attrs_ext1 attrs_ext2_alice
                one_schema) as H.
  cbv zeta in H.
  destruct H as (_ & _ & H); [discriminate | discriminate |].
  exact (H eq_refl).
Defined.

(** The rename fails because [ext2] exists; the owner statement fails
    because the schema is gone.  Both leave the transaction open, while
    the Update that reaches its read-back releases it. *)
Lemma update_early_return_keeps_transaction_open_witness :
  (calls (snd updated_clash)
   = [EvBegin; EvExec Tx "ALTER SCHEMA ext1 RENAME TO ext2"] /\
   released (calls (snd updated_clash)) = false) /\
  (calls (snd updated_gone)
   = [EvBegin; EvUsernames Tx [200%Z];
      EvExec Tx "ALTER SCHEMA ext1 OWNER TO alice"] /\
   released (calls (snd updated_gone)) = false) /\
  released (calls (snd updated_stale)) = true.
Proof.
  split; [|split].
  - pose proof (update_early_return_keeps_transaction_open d_rename_reown
                  two_schemas _ eq_refl) as H.
    cbv zeta in H. destruct H as (_ & H & _).
    destruct (H (ErrDriver "schema already exists") _ eq_refl eq_refl) as [H1 H2].
    split; [unfold updated_clash; rewrite H1; reflexivity | exact H2].
  - pose proof (update_early_return_keeps_transaction_open d_reown empty _ eq_refl)
      as H.
    cbv zeta in H. destruct H as (_ & _ & H).
    destruct (H "alice" [] (ErrDriver "schema does not exist") _
                eq_refl eq_refl eq_refl eq_refl) as [H1 H2].
    split; [unfold updated_gone; rewrite H1; reflexivity | exact H2].
  - pose proof (update_early_return_keeps_transaction_open d_stale one_schema _
                  eq_refl) as H.
    cbv zeta in H. destruct H as (H & _).
    apply H. cbn. tauto.
Defined.

(** Create with an owner on a warehouse that turns down the owner
    statement, and Create on one that turns down the oid lookup: an error
    comes back, no identifier is assigned, and [ext1] is in the catalog.
    The Create that assigns an identifier has resolved it first. *)
Lemma create_fails_before_assigning_identifier_witness :
  ((exists e, fst created_owner_refused = Ret (Some e)) /\
   rd_id (rd (snd created_owner_refused)) = EmptyString /\
   assigned_ids (calls (snd created_owner_refused)) = [] /\
   by_name "ext1" (catalog (world (snd created_owner_refused))) <> None) /\
  ((exists e, fst created_lookup_refused = Ret (Some e)) /\
   rd_id (rd (snd created_lookup_refused)) = EmptyString /\
   assigned_ids (calls (snd created_lookup_refused)) = [] /\
   by_name "ext1" (catalog (world (snd created_lookup_refused))) <> None) /\
  (exists s2,
     drv_query_string oidQuery (Get_schema_name d_create) (world s2) = inr "100").
Proof.
  split; [|split].
  - set (w := empty_refusing owner_statement).
    set (w1 := snd (drv_exec Plain (createStatement "ext1" "gluedb" role) w)).
    assert (Hexec : drv_exec Plain
                      (createStatement (Get_schema_name d_create_owned)
                         (Get_database_name d_create_owned)
                         (Get_iam_role d_create_owned)) w = (None, w1))
      by (vm_compute; reflexivity).
    pose proof (create_fails_before_assigning_identifier d_create_owned w w1 Hexec)
      as H.
    cbv zeta in H. destruct H as (H & _).
    edestruct H as (H1 & H2 & H3); [lazy; reflexivity|].
    split; [|split; [|split]].
    + eexists. unfold created_owner_refused. fold w. rewrite H1. reflexivity.
    + exact H2.
    + exact H3.
    + vm_compute. discriminate.
  - set (w := empty_refusing oidQuery).
    set (w1 := snd (drv_exec Plain (createStatement "ext1" "gluedb" role) w)).
    assert (Hexec : drv_exec Plain
                      (createStatement (Get_schema_name d_create)
                         (Get_database_name d_create)
                         (Get_iam_role d_create)) w = (None, w1))
      by (vm_compute; reflexivity).
    pose proof (create_fails_before_assigning_identifier d_create w w1 Hexec) as H.
    cbv zeta in H. destruct H as (_ & H & _).
    edestruct (H denied) as (H1 & H2 & H3);
      [lazy; reflexivity | vm_compute; reflexivity |].
    split; [|split; [|split]].
    + eexists. exact H1.
    + exact H2.
    + exact H3.
    + vm_compute. discriminate.
  - set (w1 := snd (drv_exec Plain (createStatement "ext1" "gluedb" role) empty)).
    assert (Hexec : drv_exec Plain
                      (createStatement (Get_schema_name d_create)
                         (Get_database_name d_create)
                         (Get_iam_role d_create)) empty = (None, w1))
      by (vm_compute; reflexivity).
    pose proof (create_fails_before_assigning_identifier d_create empty w1 Hexec)
      as H.
    cbv zeta in H. destruct H as (_ & _ & H & _).
    destruct (H "100") as (s2 & _ & Hq); [cbn; tauto|].
    exists s2. exact Hq.
Defined.



(** Create on an empty warehouse, and Update on a warehouse whose pooled
    connection reads uncommitted work: what [d] holds is what a fresh Read
    returns. *)
Lemma held_attributes_are_the_read_back_witness :
  (held_attributes (rd (snd created)) = mkRow "ext1" 100 "gluedb" role /\
   drv_query_schema readQuery (rd_id (rd (snd created))) (world (snd created))
   = inr (held_attributes (rd (snd created)))) /\
  (held_attributes (rd (snd updated_dirty)) = mkRow "ext2" 200 "gluedb" role /\
   fst (fresh_read updated_dirty) = Ret None /\
   rd (snd (fresh_read updated_dirty)) = rd (snd updated_dirty)).
Proof.
  split.
  - assert (Hrun : run resourceDataCatalogSchemaCreate d_create empty
                   = (Ret None, snd created)) by (vm_compute; reflexivity).
    destruct (held_attributes_are_the_read_back d_create empty) as [HC _].
    destruct (HC (snd created) Hrun) as (_ & Hr & _).
    split; [vm_compute; reflexivity | exact Hr].
  - assert (Hrun : run resourceDataCatalogSchemaUpdate d_rename_reown one_schema_dirty
                   = (Ret None, snd updated_dirty)) by (vm_compute; reflexivity).
    destruct (held_attributes_are_the_read_back d_rename_reown one_schema_dirty)
      as [_ HU].
    destruct (HU (snd updated_dirty) Hrun) as (_ & wt & Hin & _ & _ & Hfresh).
    split; [vm_compute; reflexivity|].
    apply Hfresh. exact (commit_law one_schema_dirty wt eq_refl Hin).
Defined.

(** C1 (what the code does).  Update reads back on the pooled connection
    before it commits.  On a warehouse with isolated transactions the
    Update of [ext1] towards the name [ext2] and the owner [alice] returns
    nil with the rename and the new owner committed, while [d] holds the
    row read before the commit: the old name and owner.  A fresh Read of
    the identifier returns the new ones. *)
Lemma update_held_attributes_differ_from_fresh_read :
  fst updated = Ret None /\
  held_attributes (rd (snd updated)) = mkRow "ext1" 100 "gluedb" role /\
  fst (fresh_read updated) = Ret None /\
  held_attributes (rd (snd (fresh_read updated))) = mkRow "ext2" 200 "gluedb" role /\
  held_attributes (rd (snd (fresh_read updated))) <> held_attributes (rd (snd updated)).
Proof.
  repeat split; try reflexivity.
  vm_compute. intros H. discriminate H.
Qed.

(* ------------------------------------------------------------------ *)
(** ** More facts about the callbacks, for every warehouse              *)
(* ------------------------------------------------------------------ *)

Section CallbackFacts.

Context {W : Type} {DRV : Driver W}.

(** *** Create *)

(** X1.  A Create that returns nil has made its calls in this order: the
    CREATE statement on the pooled connection, one pause of five seconds,
    the name lookup and the owner statement (only when an owner is set,
    both on the pooled connection, the statement with the first name the
    lookup returned after the pause), the oid lookup by name, [SetId] with
    the oid that lookup returned, and the read of that oid. *)
Theorem create_success_call_order (d : ResourceData) (w : W) :
  let out := run resourceDataCatalogSchemaCreate d w in
  let name := Get_schema_name d in
  let stmt := createStatement name (Get_database_name d) (Get_iam_role d) in
  fst out = Ret None ->
  exists oid,
    drv_query_string oidQuery name (world (snd out)) = inr oid /\
    rd_id (rd (snd out)) = oid /\
    ((Get_owner d = 0%Z /\
      calls (snd out) =
        [EvExec Plain stmt;
         EvSleep 5;
         EvQueryRow Plain oidQuery name; EvSetId oid;
         EvQueryRow Plain readQuery oid]) \/
     (Get_owner d <> 0%Z /\
      exists u us,
        drv_usernames Plain [Get_owner d] (drv_sleep 5 (snd (drv_exec Plain stmt w)))
        = u :: us /\
        calls (snd out) =
          [EvExec Plain stmt;
           EvSleep 5;
           EvUsernames Plain [Get_owner d];
           EvExec Plain (alterSchemaOwnerQuery name u);
           EvQueryRow Plain oidQuery name; EvSetId oid;
           EvQueryRow Plain readQuery oid])).
Proof.
  cbv zeta. go_unfold. unfold GetOk_owner. cbn [snd].
  repeat go_split; cbn [fst snd world]; intros H; try discriminate H;
    eexists; (split; [eassumption|]); (split; [reflexivity|]);
    match goal with
    | Hif : negb _ = true |- _ =>
        right; split;
        [ intros Hz; rewrite Hz in Hif; discriminate Hif
        | do 2 eexists; split; [first [reflexivity | eassumption] | reflexivity] ]
    | Hif : negb _ = false |- _ =>
        left; split;
        [ apply Z.eqb_eq; apply negb_false_iff; exact Hif | reflexivity ]
    end.
Qed.

(** X2.  When the CREATE statement fails, Create stops there: it returns
    the error of the statement inside a wrapper, makes no other call (no
    pause, no lookup, no read), assigns no identifier and writes nothing
    to [d]. *)
Theorem create_statement_failure_stops (d : ResourceData) (w w' : W) (e : error) :
  let stmt := createStatement (Get_schema_name d) (Get_database_name d)
                              (Get_iam_role d) in
  drv_exec Plain stmt w = (Some e, w') ->
  let out := run resourceDataCatalogSchemaCreate d w in
  (exists outer, fst out = Ret (Some (Wrapped outer e))) /\
  calls (snd out) = [EvExec Plain stmt] /\
  sleeps (calls (snd out)) = [] /\
  rd (snd out) = d /\ world (snd out) = w'.
Proof.
  cbv zeta. intros Hexec. go_unfold. rewrite Hexec. cbn.
  repeat split. eexists. reflexivity.
Qed.

(** X3.  Without an owner in the configuration ([owner] at its zero
    value) Create looks no name up and issues the CREATE statement only,
    whatever the warehouse answers; it cannot panic. *)
Theorem create_without_owner_issues_only_create (d : ResourceData) (w : W) :
  Get_owner d = 0%Z ->
  let out := run resourceDataCatalogSchemaCreate d w in
  executed (calls (snd out))
  = [(Plain, createStatement (Get_schema_name d) (Get_database_name d)
                             (Get_iam_role d))] /\
  lookups (calls (snd out)) = [] /\
  exists r, fst out = Ret r.
Proof.
  intros Hz. cbv zeta. go_unfold. unfold GetOk_owner. cbn [snd].
  repeat go_split;
    try match goal with
        | Hif : negb _ = true |- _ => rewrite Hz in Hif; discriminate Hif
        end;
    cbn; repeat split; eexists; reflexivity.
Qed.

(** X4.  When the CREATE statement and the owner step (if any) succeed,
    the oid lookup returns an oid and the read of that oid fails, Create
    returns the error of the read, wrapped, after the identifier has been
    assigned: [SetId] has been called once, with the oid the lookup
    returned, [d.Id()] is that oid, and no attribute of [d] has been
    written. *)
Theorem create_read_back_failure_keeps_identifier
        (d : ResourceData) (w w1 : W) (s2 : St W) (oid : string) (err : error) :
  let name := Get_schema_name d in
  let stmt := createStatement name (Get_database_name d) (Get_iam_role d) in
  let s1 := mkSt (drv_sleep 5 w1) [EvExec Plain stmt; EvSleep 5] d in
  let owner_step : M W (option error) :=
    if snd (GetOk_owner d) then updateDataCatalogSchemaOwner Plain else ret None in
  let out := run resourceDataCatalogSchemaCreate d w in
  drv_exec Plain stmt w = (None, w1) ->
  owner_step s1 = (Ret None, s2) ->
  drv_query_string oidQuery name (world s2) = inr oid ->
  drv_query_schema readQuery oid (world s2) = inl err ->
  fst out = Ret (Some (Wrapf ("Error reading external schema information for oid "
                              ++ fmt_d_string oid ++ ": {{err}}") err)) /\
  assigned_ids (calls (snd out)) = [oid] /\
  rd (snd out) = SetId oid d /\
  rd_id (rd (snd out)) = oid /\
  held_attributes (rd (snd out)) = held_attributes d /\
  world (snd out) = world s2.
Proof.
  cbv zeta. intros Hexec. go_unfold. rewrite Hexec.
  cbn [world calls rd fst snd app].
  destruct (snd (GetOk_owner d)); cbn [world calls rd fst snd app];
    repeat go_split; intros H; inversion H; subst; clear H;
    cbn [world calls rd fst snd rd_id SetId] in *; intros Hq Hr;
    try congruence;
    match goal with
    | Hquery : drv_query_string _ _ _ = inr ?v |- _ =>
        assert (Hv : v = oid) by congruence; subst v
    end;
    match goal with
    | Hread : drv_query_schema _ _ _ = inl ?e |- _ =>
        assert (He : e = err) by congruence; subst e
    end;
    cbn; repeat split.
Qed.

(** *** Which handle the callbacks use *)

(** X5.  Only Update works in a transaction.  Create, Read, Delete,
    Exists and Import never call [Begin], [Commit] or [Rollback] and send
    nothing through a transaction handle; Update calls [Begin] first, and
    calls it once. *)
Theorem only_update_opens_a_transaction (d : ResourceData) (w : W) :
  uses_transaction (calls (snd (run resourceDataCatalogSchemaCreate d w))) = false /\
  uses_transaction (calls (snd (run resourceDataCatalogSchemaRead d w))) = false /\
  uses_transaction (calls (snd (run resourceDataCatalogSchemaDelete d w))) = false /\
  uses_transaction (calls (snd (run resourceDataCatalogSchemaExists d w))) = false /\
  uses_transaction (calls (snd (run resourceDataCatalogSchemaImport d w))) = false /\
  exists rest,
    calls (snd (run resourceDataCatalogSchemaUpdate d w)) = EvBegin :: rest /\
    ~ In EvBegin rest.
Proof.
  split; [|split; [|split; [|split; [|split]]]].
  1-5: go_run; reflexivity.
  go_run; cbn [app]; eexists; (split; [reflexivity|]); cbn;
    intuition discriminate.
Qed.

(** *** Read and Import *)

(** X6.  When the join query returns a row, Read returns nil and [d.Get]
    gives the row for all four attributes, whatever [d] held before; the
    identifier, the prior state, the plan and [cascade_on_delete] are
    untouched, nothing is executed and the warehouse is as it was.
    Reading again changes nothing more. *)
Theorem read_success_overwrites_and_is_idempotent
        (d : ResourceData) (w : W) (row : CatalogRow) :
  drv_query_schema readQuery (rd_id d) w = inr row ->
  let out := run resourceDataCatalogSchemaRead d w in
  fst out = Ret None /\
  held_attributes (rd (snd out)) = row /\
  rd_id (rd (snd out)) = rd_id d /\
  rd_state (rd (snd out)) = rd_state d /\
  rd_plan (rd (snd out)) = rd_plan d /\
  Get_cascade_on_delete (rd (snd out)) = Get_cascade_on_delete d /\
  world (snd out) = w /\
  calls (snd out) = [EvQueryRow Plain readQuery (rd_id d)] /\
  rd (snd (run resourceDataCatalogSchemaRead (rd (snd out)) (world (snd out))))
  = rd (snd out).
Proof.
  intros Hr. cbv zeta. go_unfold. rewrite Hr.
  cbn [world calls rd fst snd rd_id Set_iam_role Set_database_name Set_owner
       Set_schema_name].
  rewrite Hr. destruct row. repeat split.
Qed.

(** X7.  Import is Read: it leaves the same [d], warehouse and calls.
    When Read returns nil it returns a list holding [d] alone, as Read
    left it, and no error; when Read returns an error it returns that
    same error and an empty list. *)
Theorem import_follows_read (d : ResourceData) (w : W) :
  let imp := run resourceDataCatalogSchemaImport d w in
  let rea := run resourceDataCatalogSchemaRead d w in
  snd imp = snd rea /\
  (fst rea = Ret None -> fst imp = Ret ([rd (snd rea)], None)) /\
  (forall e, fst rea = Ret (Some e) -> fst imp = Ret ([], Some e)) /\
  (forall l, fst imp = Ret (l, None) -> fst rea = Ret None /\ l = [rd (snd rea)]).
Proof.
  cbv zeta. go_unfold.
  destruct (drv_query_schema readQuery (rd_id d) w) as [e|row]; cbn;
    repeat split; intros; try discriminate; try congruence.
Qed.

(** *** Panics *)

(** X8.  On the paths that do not call [GetUsersnamesForUsesysid]
    the only panic is the one of Update on a failed [Begin].  Read,
    Exists, Delete and Import always return.  When [Begin] fails, Update
    panics with the error of [Begin], having made no other call and
    written nothing; an Update without a change of owner, which looks no
    name up, panics in that case only. *)
Theorem panics_without_name_lookup (d : ResourceData) (w : W) :
  (exists r, fst (run resourceDataCatalogSchemaRead d w) = Ret r) /\
  (exists r, fst (run resourceDataCatalogSchemaExists d w) = Ret r) /\
  (exists r, fst (run resourceDataCatalogSchemaDelete d w) = Ret r) /\
  (exists r, fst (run resourceDataCatalogSchemaImport d w) = Ret r) /\
  (forall e w',
     drv_begin w = (Some e, w') ->
     run resourceDataCatalogSchemaUpdate d w
     = (Panic (PanicError e), mkSt w' [EvBegin] d)) /\
  (HasChange_owner d = false ->
   lookups (calls (snd (run resourceDataCatalogSchemaUpdate d w))) = [] /\
   forall p,
     fst (run resourceDataCatalogSchemaUpdate d w) = Panic p ->
     exists e w', drv_begin w = (Some e, w') /\ p = PanicError e) /\
  (forall w',
     drv_begin w = (None, w') -> HasChange_owner d = false ->
     exists r, fst (run resourceDataCatalogSchemaUpdate d w) = Ret r).
Proof.
  split; [|split; [|split; [|split; [|split; [|split]]]]].
  1-4: go_run; eexists; reflexivity.
  - intros e w' Hb. go_unfold. rewrite Hb. reflexivity.
  - intros Ho. split.
    + go_unfold. repeat go_split; try discriminate; reflexivity.
    + intros p. go_unfold.
      repeat go_split; cbn [fst]; intros H; try discriminate H;
        try congruence.
      injection H as <-. do 2 eexists. split; reflexivity.
  - intros w' Hb Ho. go_unfold. rewrite Hb. cbn [world calls rd fst snd].
    repeat go_split; try congruence; eexists; reflexivity.
Qed.

(** *** Update *)

(** X9.  Whatever differs between the prior state and the plan, the only
    statements Update issues are the rename, and only if [schema_name]
    changes, and the owner statement, and only if [owner] changes; both
    go to the transaction.  A changed [database_name] or [iam_role] leads
    to no statement, and an Update without a change of name or owner
    executes nothing and looks no name up. *)
Theorem update_issues_only_rename_and_owner_statements
        (d : ResourceData) (w : W) :
  let out := run resourceDataCatalogSchemaUpdate d w in
  (forall c q,
     In (c, q) (executed (calls (snd out))) ->
     c = Tx /\
     ((HasChange_schema_name d = true /\
       q = alterSchemaNameQuery (schema_name (rd_state d)) (schema_name (rd_plan d)))
      \/
      (HasChange_owner d = true /\
       exists u, q = alterSchemaOwnerQuery (Get_schema_name d) u))) /\
  (HasChange_schema_name d = false -> HasChange_owner d = false ->
   executed (calls (snd out)) = [] /\ lookups (calls (snd out)) = []) /\
  (HasChange_owner d = false -> lookups (calls (snd out)) = []).
Proof.
  cbv zeta. split; [|split].
  - intros c q. go_unfold.
    repeat go_split; cbn [fst snd calls app executed In]; intros H;
      repeat (destruct H as [H|H]; try discriminate H); try contradiction;
      injection H as <- <-; (split; [reflexivity|]);
      first [ left; split; reflexivity
            | right; split; [reflexivity | eexists; reflexivity] ].
  - intros Hn Ho. go_unfold.
    repeat go_split; try discriminate; split; reflexivity.
  - intros Ho. go_unfold.
    repeat go_split; try discriminate; reflexivity.
Qed.

(** X10.  Update commits exactly when it returns nil.  Whenever it
    releases the transaction, the read of the identifier on the pooled
    connection is the call just before the release, nothing was committed
    or rolled back earlier, and the release is the last call: a commit
    with result nil, or a rollback with an error. *)
Theorem update_releases_right_after_read_back (d : ResourceData) (w : W) :
  let out := run resourceDataCatalogSchemaUpdate d w in
  (In EvCommit (calls (snd out)) <-> fst out = Ret None) /\
  (released (calls (snd out)) = true ->
   exists before final,
     calls (snd out)
     = (before ++ [EvQueryRow Plain readQuery (rd_id d); final])%list /\
     released before = false /\
     ((final = EvCommit /\ fst out = Ret None) \/
      (final = EvRollback /\ exists e, fst out = Ret (Some e)))).
Proof.
  cbv zeta. split.
  - go_unfold.
    repeat go_split; cbn [fst snd calls app In]; split; intros H;
      try discriminate H; try reflexivity; try tauto;
      repeat (destruct H as [H|H]; try discriminate H); contradiction.
  - go_unfold.
    repeat go_split; cbn [fst snd calls app]; intros H;
      try discriminate H;
      match goal with
      | |- exists before final, ?l = _ /\ _ =>
          exists (removelast (removelast l)); eexists;
          split; [reflexivity|]; split; [reflexivity|]
      end;
      first [ left; split; reflexivity
            | right; split; [reflexivity | eexists; reflexivity] ].
Qed.

(** *** Delete *)

(** X11.  Delete returns nil exactly when its statement succeeds, and
    otherwise the error of the statement inside a wrapper.  It makes no
    query, so nothing is verified afterwards, and it writes nothing to
    [d]; the warehouse is left as the statement left it. *)
Theorem delete_returns_the_statement_outcome (d : ResourceData) (w : W) :
  let out := run resourceDataCatalogSchemaDelete d w in
  let stmt := dropSchemaQuery (Get_schema_name d) (Get_cascade_on_delete d) in
  (fst out = Ret None <-> fst (drv_exec Plain stmt w) = None) /\
  (forall e, fst (drv_exec Plain stmt w) = Some e ->
     exists outer, fst out = Ret (Some (Wrapped outer e))) /\
  rd (snd out) = d /\
  world (snd out) = snd (drv_exec Plain stmt w) /\
  (forall c q a, ~ In (EvQueryRow c q a) (calls (snd out))).
Proof.
  cbv zeta. go_unfold. unfold GetOk_cascade_on_delete. cbn [fst snd].
  rewrite andb_diag.
  destruct (drv_exec Plain _ w) as [[e|] w']; cbn;
    repeat split; intros; try discriminate; try congruence; eauto;
    try (intros [H'|[]]; discriminate H').
  injection H as <-. eexists; reflexivity.
Qed.

(** *** The owner step *)

(** X12.  When the lookup returns at least one name, the owner step
    issues one statement, on the handle it was given, naming the schema
    as [d.Get] gives it and the first name returned; further names are
    ignored.  It returns nil exactly when that statement succeeds, and
    never writes to [d]. *)
Theorem owner_update_uses_first_name
        (q : conn) (d : ResourceData) (w : W) (u : string) (us : list string) :
  drv_usernames q [Get_owner d] w = u :: us ->
  let out := run (updateDataCatalogSchemaOwner q) d w in
  let stmt := "ALTER SCHEMA " ++ Get_schema_name d ++ " OWNER TO " ++ u in
  calls (snd out) = [EvUsernames q [Get_owner d]; EvExec q stmt] /\
  (fst out = Ret None <-> fst (drv_exec q stmt w) = None) /\
  (forall e, fst (drv_exec q stmt w) = Some e ->
     exists outer, fst out = Ret (Some (Wrapped outer e))) /\
  rd (snd out) = d.
Proof.
  intros Hnames. cbv zeta. go_unfold. rewrite Hnames.
  cbn [world calls rd fst snd]. unfold alterSchemaOwnerQuery.
  destruct (drv_exec q _ w) as [[e|] w']; cbn [world calls rd fst snd app];
    repeat split; intros; try discriminate; try congruence.
  injection H as <-. eexists; reflexivity.
Qed.

(** *** What a callback leaves in [d] and in the warehouse *)

(** X14.  A callback that does not return nil writes no attribute: after
    an error or a panic of Read and Update, after an error of Import, and
    after Delete and Exists in every case, [d] is what it was; after an
    error or a panic of Create only the identifier may have changed. *)
Theorem failed_callbacks_write_no_attribute (d : ResourceData) (w : W) :
  (fst (run resourceDataCatalogSchemaRead d w) <> Ret None ->
   rd (snd (run resourceDataCatalogSchemaRead d w)) = d) /\
  (fst (run resourceDataCatalogSchemaUpdate d w) <> Ret None ->
   rd (snd (run resourceDataCatalogSchemaUpdate d w)) = d) /\
  (forall l e, fst (run resourceDataCatalogSchemaImport d w) = Ret (l, Some e) ->
   rd (snd (run resourceDataCatalogSchemaImport d w)) = d) /\
  rd (snd (run resourceDataCatalogSchemaDelete d w)) = d /\
  rd (snd (run resourceDataCatalogSchemaExists d w)) = d /\
  (fst (run resourceDataCatalogSchemaCreate d w) <> Ret None ->
   rd_writes (rd (snd (run resourceDataCatalogSchemaCreate d w))) = rd_writes d /\
   rd_state (rd (snd (run resourceDataCatalogSchemaCreate d w))) = rd_state d /\
   rd_plan (rd (snd (run resourceDataCatalogSchemaCreate d w))) = rd_plan d).
Proof.
  split; [|split; [|split; [|split; [|split]]]].
  - go_run; cbn; intros H; congruence.
  - go_run; cbn; intros H; congruence.
  - intros l e. go_run; cbn; intros H; congruence.
  - go_run; reflexivity.
  - go_run; reflexivity.
  - go_run; cbn; intros H; try congruence; repeat split.
Qed.

(** X15.  Read, Import and Exists only look: whatever the outcome, they
    make exactly one query on the pooled connection, for [d.Id()],
    execute no statement, and leave the warehouse as it was. *)
Theorem reading_callbacks_leave_the_warehouse (d : ResourceData) (w : W) :
  (world (snd (run resourceDataCatalogSchemaRead d w)) = w /\
   calls (snd (run resourceDataCatalogSchemaRead d w))
   = [EvQueryRow Plain readQuery (rd_id d)]) /\
  (world (snd (run resourceDataCatalogSchemaImport d w)) = w /\
   calls (snd (run resourceDataCatalogSchemaImport d w))
   = [EvQueryRow Plain readQuery (rd_id d)]) /\
  (world (snd (run resourceDataCatalogSchemaExists d w)) = w /\
   calls (snd (run resourceDataCatalogSchemaExists d w))
   = [EvQueryRow Plain existenceQuery (rd_id d)]).
Proof.
  repeat apply conj; go_run; reflexivity.
Qed.

End CallbackFacts.

(* ------------------------------------------------------------------ *)
(** ** The text of the errors                                           *)
(* ------------------------------------------------------------------ *)

Lemma append_assoc (a b c : string) : (a ++ b) ++ c = a ++ b ++ c.
Proof. induction a as [|x a IH]; cbn; [reflexivity | rewrite IH; reflexivity]. Qed.

Lemma append_empty_r (a : string) : a ++ EmptyString = a.
Proof. induction a as [|x a IH]; cbn; [reflexivity | rewrite IH; reflexivity]. Qed.

Lemma no_brace_append (a b : string) :
  no_brace (a ++ b) = no_brace a && no_brace b.
Proof.
  induction a as [|x a IH]; cbn; [reflexivity|].
  rewrite IH, andb_assoc. reflexivity.
Qed.

(** In a format that ends with its only [{{err}}], the marker is replaced
    by the text of the error and the rest is kept. *)
Lemma Replace_final_marker (p rep : string) :
  no_brace p = true ->
  Replace (p ++ "{{err}}") "{{err}}" rep = p ++ rep.
Proof.
  unfold Replace. induction p as [|c p IH]; intros Hp.
  - cbn. rewrite append_empty_r. reflexivity.
  - cbn in Hp. apply andb_true_iff in Hp. destruct Hp as [Hc Hp].
    cbn [append replace_from String.prefix].
    destruct (ascii_dec "{" c) as [<-|_]; [discriminate Hc|].
    rewrite (IH Hp). reflexivity.
Qed.

Section ErrorTexts.

Context {W : Type} {DRV : Driver W}.

(** X13.  The errors of Read, Exists and Delete read as written in the
    code, followed by the text of the error they wrap (for an identifier
    or schema name without a brace).  As [d.Id()] is a string printed with
    [%d], the oid shows up as [%!d(string=...)] in the errors of Read
    and Exists. *)
Theorem error_texts_carry_the_cause (d : ResourceData) (w : W) (e : error) :
  (no_brace (rd_id d) = true ->
   drv_query_schema readQuery (rd_id d) w = inl e ->
   exists err,
     fst (run resourceDataCatalogSchemaRead d w) = Ret (Some err) /\
     Error err = "Error reading external schema information for oid %!d(string="
                 ++ rd_id d ++ "): " ++ Error e) /\
  (no_brace (rd_id d) = true ->
   drv_query_string existenceQuery (rd_id d) w = inl e -> e <> ErrNoRows ->
   exists err,
     fst (run resourceDataCatalogSchemaExists d w) = Ret (false, Some err) /\
     Error err = "Error reading external schema with oid %!d(string="
                 ++ rd_id d ++ "): " ++ Error e) /\
  (no_brace (Get_schema_name d) = true ->
   fst (drv_exec Plain (dropSchemaQuery (Get_schema_name d)
                                        (Get_cascade_on_delete d)) w) = Some e ->
   exists err,
     fst (run resourceDataCatalogSchemaDelete d w) = Ret (Some err) /\
     Error err = "Error dropping external schema " ++ Get_schema_name d
                 ++ ": " ++ Error e).
Proof.
  split; [|split].
  - intros Hid Hq. go_unfold. rewrite Hq. eexists. split; [reflexivity|].
    unfold Wrapf, fmt_d_string. cbn [Error].
    replace ("Error reading external schema information for oid "
             ++ ("%!d(string=" ++ rd_id d ++ ")") ++ ": {{err}}")
      with (("Error reading external schema information for oid %!d(string="
             ++ rd_id d ++ "): ") ++ "{{err}}")
      by (cbn; rewrite !append_assoc; reflexivity).
    rewrite Replace_final_marker.
    + cbn. rewrite !append_assoc. reflexivity.
    + cbn. rewrite no_brace_append, Hid. reflexivity.
  - intros Hid Hq Hne. go_unfold. rewrite Hq.
    exists (Wrapf ("Error reading external schema with oid "
                   ++ fmt_d_string (rd_id d) ++ ": {{err}}") e).
    split; [destruct e; try reflexivity; contradiction|].
    unfold Wrapf, fmt_d_string. cbn [Error].
    replace ("Error reading external schema with oid "
             ++ ("%!d(string=" ++ rd_id d ++ ")") ++ ": {{err}}")
      with (("Error reading external schema with oid %!d(string="
             ++ rd_id d ++ "): ") ++ "{{err}}")
      by (cbn; rewrite !append_assoc; reflexivity).
    rewrite Replace_final_marker.
    + cbn. rewrite !append_assoc. reflexivity.
    + cbn. rewrite no_brace_append, Hid. reflexivity.
  - intros Hname Hexec. go_unfold. unfold GetOk_cascade_on_delete.
    cbn [fst snd]. rewrite andb_diag.
    destruct (drv_exec Plain _ w) as [[e'|] w']; cbn in Hexec;
      [injection Hexec as ->|discriminate Hexec].
    cbn [world calls rd fst snd]. eexists. split; [reflexivity|].
    unfold Wrapf. cbn [Error].
    replace ("Error dropping external schema " ++ Get_schema_name d ++ ": {{err}}")
      with (("Error dropping external schema " ++ Get_schema_name d ++ ": ")
            ++ "{{err}}")
      by (cbn; rewrite !append_assoc; reflexivity).
    rewrite Replace_final_marker.
    + cbn. rewrite !append_assoc. reflexivity.
    + cbn. rewrite no_brace_append, Hname. reflexivity.
Qed.

End ErrorTexts.

(* ------------------------------------------------------------------ *)
(** ** More runs on the small warehouse                                 *)
(* ------------------------------------------------------------------ *)

(** Create without and with an owner on an empty warehouse. *)
Lemma create_success_call_order_witness :
  (exists oid,
     drv_query_string oidQuery (Get_schema_name d_create) (world (snd created))
     = inr oid /\
     rd_id (rd (snd created)) = oid /\
     calls (snd created) =
       [EvExec Plain (createStatement "ext1" "gluedb" role); EvSleep 5;
        EvQueryRow Plain oidQuery "ext1"; EvSetId oid;
        EvQueryRow Plain readQuery oid]) /\
  (exists oid u,
     drv_query_string oidQuery (Get_schema_name d_create_owned)
                      (world (snd created_owned)) = inr oid /\
     rd_id (rd (snd created_owned)) = oid /\
     calls (snd created_owned) =
       [EvExec Plain (createStatement "ext1" "gluedb" role); EvSleep 5;
        EvUsernames Plain [200%Z];
        EvExec Plain (alterSchemaOwnerQuery "ext1" u);
        EvQueryRow Plain oidQuery "ext1"; EvSetId oid;
        EvQueryRow Plain readQuery oid]).
Proof.
  split.
  - assert (Hok : fst (run resourceDataCatalogSchemaCreate d_create empty) = Ret None)
      by (vm_compute; reflexivity).
    destruct (create_success_call_order d_create empty Hok)
      as (oid & Hq & Hid & [[_ Hc] | [Hnz _]]).
    + exists oid. split; [exact Hq|]. split; [exact Hid | exact Hc].
    + exfalso. apply Hnz. reflexivity.
  - assert (Hok : fst (run resourceDataCatalogSchemaCreate d_create_owned empty)
                  = Ret None)
      by (vm_compute; reflexivity).
    destruct (create_success_call_order d_create_owned empty Hok)
      as (oid & Hq & Hid & [[Hz _] | [_ (u & us & _ & Hc)]]).
    + discriminate Hz.
    + exists oid, u. split; [exact Hq|]. split; [exact Hid | exact Hc].
Defined.

(** Create on a warehouse that turns the CREATE statement down. *)
Lemma create_statement_failure_stops_witness :
  (exists outer, fst created_refused = Ret (Some (Wrapped outer denied))) /\
  calls (snd created_refused) = [EvExec Plain create_statement] /\
  sleeps (calls (snd created_refused)) = [] /\
  rd (snd created_refused) = d_create /\
  world (snd created_refused) = empty_refusing create_statement.
Proof.
  assert (Hexec : drv_exec Plain
                    (createStatement (Get_schema_name d_create)
                       (Get_database_name d_create) (Get_iam_role d_create))
                    (empty_refusing create_statement)
                  = (Some denied, empty_refusing create_statement))
    by (vm_compute; reflexivity).
  exact (create_statement_failure_stops d_create (empty_refusing create_statement)
           _ denied Hexec).
Defined.

(** Create without an owner, on an empty warehouse and on one that turns
    the oid lookup down. *)
Lemma create_without_owner_issues_only_create_witness :
  executed (calls (snd created)) = [(Plain, create_statement)] /\
  lookups (calls (snd created_lookup_refused)) = [].
Proof.
  split.
  - exact (proj1 (create_without_owner_issues_only_create d_create empty eq_refl)).
  - exact (proj1 (proj2 (create_without_owner_issues_only_create d_create
                           (empty_refusing oidQuery) eq_refl))).
Defined.

(** Create on a warehouse that turns the read down: the error comes back
    and the identifier [100] is assigned. *)
Lemma create_read_back_failure_keeps_identifier_witness :
  fst created_unread
  = Ret (Some (Wrapf ("Error reading external schema information for oid "
                      ++ fmt_d_string "100" ++ ": {{err}}") denied)) /\
  assigned_ids (calls (snd created_unread)) = ["100"] /\
  rd (snd created_unread) = SetId "100" d_create /\
  rd_id (rd (snd created_unread)) = "100" /\
  held_attributes (rd (snd created_unread)) = held_attributes d_create.
Proof.
  set (w := empty_refusing readQuery).
  set (stmt := createStatement (Get_schema_name d_create)
                 (Get_database_name d_create) (Get_iam_role d_create)).
  set (w1 := snd (drv_exec Plain stmt w)).
  set (s1 := mkSt (drv_sleep 5 w1) [EvExec Plain stmt; EvSleep 5] d_create).
  assert (Hexec : drv_exec Plain stmt w = (None, w1))
    by (vm_compute; reflexivity).
  assert (Hown : (if snd (GetOk_owner d_create)
                  then updateDataCatalogSchemaOwner Plain else ret None) s1
                 = (Ret None, s1))
    by reflexivity.
  assert (Hq : drv_query_string oidQuery (Get_schema_name d_create) (world s1)
               = inr "100")
    by (vm_compute; reflexivity).
  assert (Hr : drv_query_schema readQuery "100" (world s1) = inl denied)
    by (vm_compute; reflexivity).
  pose proof (create_read_back_failure_keeps_identifier d_create w w1 s1 "100"
                denied Hexec Hown Hq Hr) as H.
  cbv zeta in H. destruct H as (H1 & H2 & H3 & H4 & H5 & _).
  split; [exact H1|]. split; [exact H2|]. split; [exact H3|].
  split; [exact H4 | exact H5].
Defined.

(** Read of [ext1] into a [d] that plans another name and owner. *)
Lemma read_success_overwrites_and_is_idempotent_witness :
  fst read_ext1 = Ret None /\
  held_attributes (rd (snd read_ext1)) = mkRow "ext1" 100 "gluedb" role /\
  rd_plan (rd (snd read_ext1)) = attrs_ext2_alice /\
  world (snd read_ext1) = one_schema /\
  rd (snd (fresh_read read_ext1)) = rd (snd read_ext1).
Proof.
  assert (Hr : drv_query_schema readQuery (rd_id d_rename_reown) one_schema
               = inr (mkRow "ext1" 100 "gluedb" role))
    by (vm_compute; reflexivity).
  pose proof (read_success_overwrites_and_is_idempotent d_rename_reown one_schema
                _ Hr) as H.
  cbv zeta in H.
  destruct H as (H1 & H2 & _ & _ & H5 & _ & H7 & _ & H9).
  split; [exact H1|]. split; [exact H2|]. split; [exact H5|].
  split; [exact H7 | exact H9].
Defined.

(** Import of [ext1], there and gone. *)
Lemma import_follows_read_witness :
  fst imported = Ret ([rd (snd (run resourceDataCatalogSchemaRead d_current one_schema))],
                      None) /\
  (exists e, fst imported_missing = Ret ([], Some e)) /\
  fst (run resourceDataCatalogSchemaRead d_current one_schema) = Ret None.
Proof.
  assert (Hok : fst (run resourceDataCatalogSchemaRead d_current one_schema) = Ret None)
    by (vm_compute; reflexivity).
  pose proof (import_follows_read d_current one_schema) as H.
  pose proof (import_follows_read d_current empty) as H'.
  cbv zeta in H, H'.
  destruct H as (_ & H2 & _ & H4). destruct H' as (_ & _ & H3' & _).
  split; [exact (H2 Hok)|]. split.
  - eexists. apply H3'. vm_compute. reflexivity.
  - exact (proj1 (H4 _ (H2 Hok))).
Defined.

(** Update on a warehouse out of reach panics at [Begin]; Update with
    nothing to change on a warehouse in reach returns. *)
Lemma panics_without_name_lookup_witness :
  run resourceDataCatalogSchemaUpdate d_rename_reown one_schema_down
  = (Panic (PanicError unreachable), mkSt one_schema_down [EvBegin] d_rename_reown) /\
  lookups (calls (snd (run resourceDataCatalogSchemaUpdate d_current one_schema)))
  = [] /\
  (exists r, fst (run resourceDataCatalogSchemaUpdate d_current one_schema) = Ret r) /\
  (exists e w', drv_begin one_schema_down = (Some e, w') /\
                PanicError unreachable = PanicError e).
Proof.
  pose proof (panics_without_name_lookup d_rename_reown one_schema_down)
    as (_ & _ & _ & _ & HB & _).
  pose proof (panics_without_name_lookup d_current one_schema)
    as (_ & _ & _ & _ & _ & HL & HR).
  pose proof (panics_without_name_lookup d_current one_schema_down)
    as (_ & _ & _ & _ & _ & HL' & _).
  assert (Hb : drv_begin one_schema_down = (Some unreachable, one_schema_down))
    by reflexivity.
  assert (Hb' : drv_begin one_schema
                = (None, snd (drv_begin one_schema)))
    by reflexivity.
  assert (Ho : HasChange_owner d_current = false) by reflexivity.
  assert (Hp : fst (run resourceDataCatalogSchemaUpdate d_current one_schema_down)
               = Panic (PanicError unreachable))
    by (vm_compute; reflexivity).
  split; [exact (HB _ _ Hb)|].
  split; [exact (proj1 (HL Ho))|].
  split; [exact (HR _ Hb' Ho) | exact (proj2 (HL' Ho) _ Hp)].
Defined.

(** Update renaming [ext1] and giving it to [alice], and Update with
    nothing to change. *)
Lemma update_issues_only_rename_and_owner_statements_witness :
  (Tx = Tx /\
   (HasChange_schema_name d_rename_reown = true /\
    "ALTER SCHEMA ext1 RENAME TO ext2"
    = alterSchemaNameQuery (schema_name (rd_state d_rename_reown))
                           (schema_name (rd_plan d_rename_reown))
    \/
    HasChange_owner d_rename_reown = true /\
    exists u, "ALTER SCHEMA ext1 RENAME TO ext2"
              = alterSchemaOwnerQuery (Get_schema_name d_rename_reown) u)) /\
  executed (calls (snd updated_unchanged)) = [] /\
  lookups (calls (snd updated_unchanged)) = [].
Proof.
  unfold updated_unchanged.
  pose proof (update_issues_only_rename_and_owner_statements d_rename_reown
                one_schema) as H.
  pose proof (update_issues_only_rename_and_owner_statements d_current one_schema)
    as H'.
  cbv zeta in H, H'.
  destruct H as (H1 & _). destruct H' as (_ & H2' & H3').
  assert (Hin : In (Tx, "ALTER SCHEMA ext1 RENAME TO ext2")
                   (executed (calls (snd (run resourceDataCatalogSchemaUpdate
                                            d_rename_reown one_schema)))))
    by (vm_compute; left; reflexivity).
  assert (Hn : HasChange_schema_name d_current = false) by reflexivity.
  assert (Ho : HasChange_owner d_current = false) by reflexivity.
  split; [exact (H1 Tx _ Hin)|].
  split; [exact (proj1 (H2' Hn Ho)) | exact (H3' Ho)].
Defined.

(** The Update that commits and the Update that rolls back. *)
Lemma update_releases_right_after_read_back_witness :
  fst (run resourceDataCatalogSchemaUpdate d_rename_reown one_schema) = Ret None /\
  (exists before final,
     calls (snd (run resourceDataCatalogSchemaUpdate d_rename_reown one_schema))
     = (before ++ [EvQueryRow Plain readQuery (rd_id d_rename_reown); final])%list /\
     released before = false /\
     ((final = EvCommit /\
       fst (run resourceDataCatalogSchemaUpdate d_rename_reown one_schema) = Ret None)
      \/
      (final = EvRollback /\
       exists e, fst (run resourceDataCatalogSchemaUpdate d_rename_reown one_schema)
                 = Ret (Some e)))) /\
  (exists before final,
     calls (snd (run resourceDataCatalogSchemaUpdate d_stale one_schema))
     = (before ++ [EvQueryRow Plain readQuery (rd_id d_stale); final])%list /\
     released before = false /\
     ((final = EvCommit /\
       fst (run resourceDataCatalogSchemaUpdate d_stale one_schema) = Ret None)
      \/
      (final = EvRollback /\
       exists e, fst (run resourceDataCatalogSchemaUpdate d_stale one_schema)
                 = Ret (Some e)))).
Proof.
  pose proof (update_releases_right_after_read_back d_rename_reown one_schema) as H.
  pose proof (update_releases_right_after_read_back d_stale one_schema) as H'.
  cbv zeta in H, H'.
  destruct H as (H1 & H2). destruct H' as (_ & H2').
  assert (Hc : In EvCommit
                  (calls (snd (run resourceDataCatalogSchemaUpdate d_rename_reown
                                   one_schema))))
    by (vm_compute; do 5 right; left; reflexivity).
  assert (Hr : released (calls (snd (run resourceDataCatalogSchemaUpdate
                                       d_rename_reown one_schema))) = true)
    by (vm_compute; reflexivity).
  assert (Hr' : released (calls (snd (run resourceDataCatalogSchemaUpdate
                                        d_stale one_schema))) = true)
    by (vm_compute; reflexivity).
  split; [exact (proj1 H1 Hc)|].
  split; [exact (H2 Hr) | exact (H2' Hr')].
Defined.

(** Delete of [ext1], there and gone. *)
Lemma delete_returns_the_statement_outcome_witness :
  fst (run resourceDataCatalogSchemaDelete d_current one_schema) = Ret None /\
  (exists outer,
     fst (run resourceDataCatalogSchemaDelete d_current empty)
     = Ret (Some (Wrapped outer (ErrDriver "schema does not exist")))) /\
  fst (drv_exec Plain (dropSchemaQuery (Get_schema_name d_current)
                                       (Get_cascade_on_delete d_current))
                one_schema) = None.
Proof.
  pose proof (delete_returns_the_statement_outcome d_current one_schema) as H.
  pose proof (delete_returns_the_statement_outcome d_current empty) as H'.
  cbv zeta in H, H'.
  destruct H as (H1 & _). destruct H' as (_ & H2' & _).
  assert (Hok : fst (drv_exec Plain
                       (dropSchemaQuery (Get_schema_name d_current)
                                        (Get_cascade_on_delete d_current))
                       one_schema) = None)
    by (vm_compute; reflexivity).
  assert (Hko : fst (drv_exec Plain
                       (dropSchemaQuery (Get_schema_name d_current)
                                        (Get_cascade_on_delete d_current))
                       empty) = Some (ErrDriver "schema does not exist"))
    by (vm_compute; reflexivity).
  split; [exact (proj2 H1 Hok)|].
  split; [exact (H2' _ Hko) | exact (proj1 H1 (proj2 H1 Hok))].
Defined.

(** Giving [ext1] to [alice] on the pooled connection. *)
Lemma owner_update_uses_first_name_witness :
  calls (snd (run (updateDataCatalogSchemaOwner Plain) d_reown one_schema))
  = [EvUsernames Plain [Get_owner d_reown];
     EvExec Plain ("ALTER SCHEMA " ++ Get_schema_name d_reown ++ " OWNER TO " ++ "alice")] /\
  fst (run (updateDataCatalogSchemaOwner Plain) d_reown one_schema) = Ret None /\
  rd (snd (run (updateDataCatalogSchemaOwner Plain) d_reown one_schema)) = d_reown.
Proof.
  assert (Hnames : drv_usernames Plain [Get_owner d_reown] one_schema = ["alice"])
    by (vm_compute; reflexivity).
  pose proof (owner_update_uses_first_name Plain d_reown one_schema "alice" []
                Hnames) as H.
  cbv zeta in H. destruct H as (H1 & H2 & _ & H4).
  assert (Hok : fst (drv_exec Plain
                       ("ALTER SCHEMA " ++ Get_schema_name d_reown ++ " OWNER TO "
                        ++ "alice") one_schema) = None)
    by (vm_compute; reflexivity).
  split; [exact H1|]. split; [exact (proj2 H2 Hok) | exact H4].
Defined.

(** The errors of Read and Delete when [ext1] is gone, and of Exists
    when the warehouse is out of reach. *)
Lemma error_texts_carry_the_cause_witness :
  (exists err,
     fst (run resourceDataCatalogSchemaRead d_current empty) = Ret (Some err) /\
     Error err
     = "Error reading external schema information for oid %!d(string="
       ++ rd_id d_current ++ "): " ++ Error ErrNoRows) /\
  (exists err,
     fst (run resourceDataCatalogSchemaExists d_current one_schema_down)
     = Ret (false, Some err) /\
     Error err
     = "Error reading external schema with oid %!d(string="
       ++ rd_id d_current ++ "): " ++ Error unreachable) /\
  (exists err,
     fst (run resourceDataCatalogSchemaDelete d_current empty) = Ret (Some err) /\
     Error err = "Error dropping external schema " ++ Get_schema_name d_current
                 ++ ": " ++ Error (ErrDriver "schema does not exist")).
Proof.
  assert (Hid : no_brace (rd_id d_current) = true) by reflexivity.
  assert (Hname : no_brace (Get_schema_name d_current) = true) by reflexivity.
  assert (Hq : drv_query_schema readQuery (rd_id d_current) empty = inl ErrNoRows)
    by (vm_compute; reflexivity).
  assert (Hq' : drv_query_string existenceQuery (rd_id d_current) one_schema_down
                = inl unreachable)
    by (vm_compute; reflexivity).
  assert (Hne : unreachable <> ErrNoRows) by discriminate.
  assert (Hko : fst (drv_exec Plain
                       (dropSchemaQuery (Get_schema_name d_current)
                                        (Get_cascade_on_delete d_current))
                       empty) = Some (ErrDriver "schema does not exist"))
    by (vm_compute; reflexivity).
  split; [|split].
  - exact (proj1 (error_texts_carry_the_cause d_current empty ErrNoRows) Hid Hq).
  - exact (proj1 (proj2 (error_texts_carry_the_cause d_current one_schema_down
                           unreachable)) Hid Hq' Hne).
  - exact (proj2 (proj2 (error_texts_carry_the_cause d_current empty
                           (ErrDriver "schema does not exist"))) Hname Hko).
Defined.

(** The texts in full. *)
Example error_texts_in_full :
  (exists e, fst (run resourceDataCatalogSchemaRead d_current empty) = Ret (Some e) /\
     Error e = "Error reading external schema information for oid %!d(string=100): sql: no rows in result set") /\
  (exists e, fst deleted_missing = Ret (Some e) /\
     Error e = "Error dropping external schema ext1: schema does not exist").
Proof. split; eexists; split; vm_compute; reflexivity. Qed.

(** Read of a schema that is gone, the Update rolled back for a stale
    identifier, Import of a schema that is gone, and the Creates that
    fail: [d] keeps what it held. *)
Lemma failed_callbacks_write_no_attribute_witness :
  rd (snd (run resourceDataCatalogSchemaRead d_current empty)) = d_current /\
  rd (snd (run resourceDataCatalogSchemaUpdate d_stale one_schema)) = d_stale /\
  rd (snd (run resourceDataCatalogSchemaImport d_current empty)) = d_current /\
  rd_writes (rd (snd (run resourceDataCatalogSchemaCreate d_create
                          (empty_refusing readQuery)))) = rd_writes d_create.
Proof.
  pose proof (failed_callbacks_write_no_attribute d_current empty)
    as (HR & _ & HI & _).
  pose proof (failed_callbacks_write_no_attribute d_stale one_schema)
    as (_ & HU & _).
  pose proof (failed_callbacks_write_no_attribute d_create (empty_refusing readQuery))
    as (_ & _ & _ & _ & _ & HC).
  assert (H1 : fst (run resourceDataCatalogSchemaRead d_current empty) <> Ret None)
    by (vm_compute; discriminate).
  assert (H2 : fst (run resourceDataCatalogSchemaUpdate d_stale one_schema) <> Ret None)
    by (vm_compute; discriminate).
  assert (H3 : fst (run resourceDataCatalogSchemaImport d_current empty)
               = Ret ([], Some (Wrapf
                    ("Error reading external schema information for oid "
                     ++ fmt_d_string "100" ++ ": {{err}}") ErrNoRows)))
    by (vm_compute; reflexivity).
  assert (H4 : fst (run resourceDataCatalogSchemaCreate d_create
                        (empty_refusing readQuery)) <> Ret None)
    by (vm_compute; discriminate).
  split; [exact (HR H1)|]. split; [exact (HU H2)|].
  split; [exact (HI _ _ H3) | exact (proj1 (HC H4))].
Defined.

(** Create on an empty warehouse assigns the oid its lookup returned,
    once; the Update that renames [ext1] keeps the identifier. *)
Lemma identifier_assigned_only_by_create_witness :
  (exists oid,
     drv_query_string oidQuery (Get_schema_name d_create) (world (snd created))
     = inr oid /\
     assigned_ids (calls (snd created)) = [oid] /\
     rd_id (rd (snd created)) = oid) /\
  (assigned_ids (calls (snd created)) = ["100"] /\
   rd_id (rd (snd created)) = "100") /\
  rd_id (rd (snd updated)) = rd_id d_rename_reown.
Proof.
  pose proof (identifier_assigned_only_by_create d_create empty) as H.
  pose proof (identifier_assigned_only_by_create d_rename_reown one_schema) as H'.
  cbv zeta in H, H'.
  destruct H as (_ & _ & _ & _ & _ & _ & Hreached & Hok).
  destruct H' as (_ & (Hup & _) & _).
  assert (Hnil : fst (run resourceDataCatalogSchemaCreate d_create empty) = Ret None)
    by (vm_compute; reflexivity).
  assert (Hin : In (EvQueryRow Plain oidQuery (Get_schema_name d_create))
                   (calls (snd (run resourceDataCatalogSchemaCreate d_create empty))))
    by (vm_compute; do 2 right; left; reflexivity).
  assert (Hq : drv_query_string oidQuery (Get_schema_name d_create)
                 (world (snd (run resourceDataCatalogSchemaCreate d_create empty)))
               = inr "100")
    by (vm_compute; reflexivity).
  split; [exact (Hok Hnil)|].
  split; [exact (Hreached "100" Hin Hq) | exact Hup].
Defined.
